(** * ChatBot: retrieval, fallback and text normalisation

    A shallow embedding of [app.py] (the serving path) and
    [build_vector.py] (the offline index build), with the properties the
    design document states about them.

    Python strings are sequences of Unicode code points and are modelled
    as [list N].  The whitespace table is CPython's full table.  The
    alphanumeric table and [str.lower] are CPython's on the code points
    0..255; beyond, they are taken from a [Unicode] structure, over
    which every definition and every statement is generic. *)

From Stdlib Require Import List NArith ZArith QArith Bool Lia Ascii String.
From stdpp Require Import gmap strings.
Import ListNotations.

#[local] Open Scope list_scope.
#[local] Open Scope nat_scope.

(* ===================================================================== *)
(** * The Python runtime the two scripts rely on *)
(* ===================================================================== *)

Module Py.

(** ** Strings *)

Definition char := N.
Definition pystr := list char.

(** A source literal, code point by code point (ASCII literals only). *)
Definition str (s : string) : pystr :=
  List.map N_of_ascii (list_ascii_of_string s).

(** A string of code points below 256. *)
Definition latin1 (s : pystr) : Prop := Forall (fun c => (c < 256)%N) s.

(** The part of the Unicode database the two scripts reach through
    [\w] and [str.lower] and that is not tabulated below. *)
Class Unicode := {
  (** [Py_UNICODE_ISALNUM] on a code point from 256 on that is not
      whitespace *)
  isalnum_above : char -> bool;
  (** [str.lower] on a string with a code point from 256 on; there it
      is not a character-by-character map (a capital sigma is lowered
      according to its neighbours, U+0130 to two code points) *)
  lower_above : pystr -> pystr
}.

Definition in_range (lo hi c : N) : bool := ((lo <=? c) && (c <=? hi))%N.

(** [Py_UNICODE_ISSPACE]: used by [str.strip] and by [\s]. *)
Definition isspace (c : char) : bool :=
  in_range 9 13 c || in_range 28 32 c || (c =? 133)%N || (c =? 160)%N
  || (c =? 5760)%N || in_range 8192 8202 c || (c =? 8232)%N
  || (c =? 8233)%N || (c =? 8239)%N || (c =? 8287)%N || (c =? 12288)%N.

(** [Py_UNICODE_ISALNUM] on the code points 0..255. *)
Definition isalnum_latin1 (c : char) : bool :=
  in_range 48 57 c || in_range 65 90 c || in_range 97 122 c
  || (c =? 170)%N || in_range 178 179 c || (c =? 181)%N
  || in_range 185 186 c || in_range 188 190 c
  || in_range 192 214 c || in_range 216 246 c || in_range 248 255 c.

(** [str.lower] on the code points 0..255: A-Z and the upper-case
    letters of the Latin-1 supplement move up by 32. *)
Definition lower_char (c : char) : char :=
  if in_range 65 90 c || in_range 192 214 c || in_range 216 222 c
  then (c + 32)%N else c.

Section Tables.
Context {U : Unicode}.

(** [Py_UNICODE_ISALNUM]; none of the whitespace code points is
    alphanumeric. *)
Definition isalnum (c : char) : bool :=
  if (c <? 256)%N then isalnum_latin1 c
  else if isspace c then false else isalnum_above c.

(** [\w]: alphanumeric or underscore. *)
Definition is_word (c : char) : bool := isalnum c || (c =? 95)%N.

(** [s.lower()]: character by character on a string of code points
    below 256. *)
Definition lower (s : pystr) : pystr :=
  if forallb (fun c => (c <? 256)%N) s then List.map lower_char s
  else lower_above s.

Fixpoint lstrip (s : pystr) : pystr :=
  match s with
  | [] => []
  | c :: r => if isspace c then lstrip r else s
  end.

Fixpoint rstrip (s : pystr) : pystr :=
  match s with
  | [] => []
  | c :: r =>
      match rstrip r with
      | [] => if isspace c then [] else [c]
      | r' => c :: r'
      end
  end.

(** [s.strip()] *)
Definition strip (s : pystr) : pystr := lstrip (rstrip s).

(** [s[:n]] *)
Definition slice_to (n : nat) (s : pystr) : pystr := firstn n s.

Fixpoint strip_prefix (a s : pystr) : option pystr :=
  match a, s with
  | [], _ => Some s
  | x :: a', y :: s' => if (x =? y)%N then strip_prefix a' s' else None
  | _ :: _, [] => None
  end.

Definition startswith (a s : pystr) : bool :=
  match strip_prefix a s with Some _ => true | None => false end.

(** [needle in hay] for two strings. *)
Fixpoint contains (needle hay : pystr) : bool :=
  startswith needle hay
  || match hay with
     | [] => false
     | _ :: r => contains needle r
     end.

(** ** The regular expressions of the two normalisers

    Three shapes occur: a character class replaced by nothing, a
    whitespace run replaced by one space, and an alternation of
    literals between two [\b]. *)

(** [re.sub(r'[^\w\s]', '', text)] *)
Definition remove_punct (text : pystr) : pystr :=
  List.filter (fun c => is_word c || isspace c) text.

(** [re.sub(r'\s+', ' ', text)]: [in_run] says the previous character
    belonged to the run being replaced. *)
Fixpoint collapse_from (in_run : bool) (text : pystr) : pystr :=
  match text with
  | [] => []
  | c :: r =>
      if isspace c
      then (if in_run then collapse_from true r
            else 32%N :: collapse_from true r)
      else c :: collapse_from false r
  end.

Definition collapse_ws (text : pystr) : pystr := collapse_from false text.

Definition head_is_word (s : pystr) : bool :=
  match s with [] => false | c :: _ => is_word c end.

Definition last_is_word (s : pystr) : bool :=
  match rev s with [] => false | c :: _ => is_word c end.

(** [\b] between a position whose left neighbour is a word character
    iff [prev] and the remaining text [rest]. *)
Definition word_boundary (prev : bool) (rest : pystr) : bool :=
  xorb prev (head_is_word rest).

(** The alternation after the opening [\b]: the alternatives are tried
    in order, and one is taken when it is a prefix of the text and the
    closing [\b] holds behind it.  The result is the match length. *)
Fixpoint find_match (alts : list pystr) (s : pystr) : option nat :=
  match alts with
  | [] => None
  | a :: alts' =>
      match strip_prefix a s with
      | Some rest =>
          if word_boundary (last_is_word a) rest
          then Some (length a) else find_match alts' s
      | None => find_match alts' s
      end
  end.

(** Left-to-right scan of [re.sub(r'\b(a1|...|an)\b', repl, text)]:
    [prev] is whether the character before the position is a word
    character, [skip] the number of characters of the current match
    still to be consumed. *)
Fixpoint sub_scan (alts : list pystr) (repl : pystr)
    (prev : bool) (skip : nat) (text : pystr) : pystr :=
  match text with
  | [] => []
  | c :: r =>
      match skip with
      | S k => sub_scan alts repl (is_word c) k r
      | O =>
          if word_boundary prev text then
            match find_match alts text with
            | Some (S k) => repl ++ sub_scan alts repl (is_word c) k r
            | _ => c :: sub_scan alts repl (is_word c) 0 r
            end
          else c :: sub_scan alts repl (is_word c) 0 r
      end
  end.

Definition re_sub_words (alts : list pystr) (repl text : pystr) : pystr :=
  sub_scan alts repl false 0 text.

End Tables.

(** [x?] after a literal: the longer alternative is tried first. *)
Definition opt_s (w : string) : list pystr := [str (w ++ "s"); str w].

(** ** Values, exceptions and calls to the outside *)

Inductive pyval :=
| PyNone
| PyStr (s : pystr)
| PyNaN
| PyInt (z : Z).

Inductive exn :=
| AttributeError | TypeError | KeyError | IndexError | AssertionError
| ExternalError.

Inductive exc (A : Type) :=
| Ok (a : A)
| Raise (e : exn).
Arguments Ok {A} a.
Arguments Raise {A} e.

(** [l[i]] on a list, negative indices counting from the end. *)
Definition getitem {A} (l : list A) (i : Z) : exc A :=
  let n := Z.of_nat (length l) in
  let j := (if i <? 0 then i + n else i)%Z in
  if ((0 <=? j) && (j <? n))%Z
  then match nth_error l (Z.to_nat j) with
       | Some x => Ok x
       | None => Raise IndexError
       end
  else Raise IndexError.

End Py.

(* ===================================================================== *)
(** * External libraries: embedding model, similarity index, hosted model *)
(* ===================================================================== *)

Module Ext.
Import Py.

(** The entries of an embedding are only passed on, from the embedder
    to the index; they are modelled by the rationals they denote. *)
Definition vec := list Q.
Definition ndarray := list vec.

(** An entry of the distance array, a [float32]: a number, an infinity
    or NaN. *)
Inductive float32 :=
| Number (q : Q)
| Infinity (negative : bool)
| NaN.

(** [SentenceTransformer]: [encode] takes a list of sentences. *)
Record SentenceTransformer := {
  encode : list pystr -> exc ndarray
}.

(** A loaded similarity index: [search(x, k)] returns the distance
    array [D] and the position array [I]. *)
Record SearchIndex := {
  search : ndarray -> Z -> exc (list (list float32) * list (list Z))
}.

Record GenerationConfig := {
  max_output_tokens : N;
  temperature : Q
}.

(** The reply object of the hosted model; reading [.text] may raise. *)
Record GenerateContentResponse := {
  text : exc pystr
}.

Record GenerativeModel := {
  generate_content : pystr -> GenerationConfig -> exc GenerateContentResponse
}.

(** Calls that leave the process, in the order they are made. *)
Inductive call :=
| CallEncode (texts : list pystr)
| CallSearch (x : ndarray) (k : Z)
| CallGenerate (prompt : pystr) (config : GenerationConfig).

(** A computation that may raise and that records its outside calls. *)
Definition M (A : Type) : Type := (exc A * list call)%type.

Definition ret {A} (a : A) : M A := (Ok a, []).

Definition bind {A B} (m : M A) (k : A -> M B) : M B :=
  match m with
  | (Ok a, l) => let '(r, l') := k a in (r, l ++ l')
  | (Raise e, l) => (Raise e, l)
  end.

(** A step that cannot reach the outside. *)
Definition lift {A} (x : exc A) : M A := (x, []).

(** A call to the outside, recorded whether or not it raises. *)
Definition outside {A} (c : call) (x : exc A) : M A := (x, [c]).

(** [try: body  except: handler] with a bare [except]. *)
Definition try_except {A} (body : M A) (handler : M A) : M A :=
  match body with
  | (Ok a, l) => (Ok a, l)
  | (Raise _, l) => let '(r, l') := handler in (r, l ++ l')
  end.

Definition result {A} (m : M A) : exc A := fst m.
Definition calls {A} (m : M A) : list call := snd m.

End Ext.

Notation "x <- m ;; k" := (Ext.bind m (fun x => k))
  (at level 100, m at next level, right associativity).

(* ===================================================================== *)
(** * app.py *)
(* ===================================================================== *)

Module App.
Import Py Ext.

Section Tables.
Context {U : Unicode}.

Definition COLLEGE_NAME : pystr := str "Siliguri Institute of Technology".
(** The separator after [+91] is U+2011 (non-breaking hyphen). *)
Definition CONTACT_INFO : pystr :=
  str "+91" ++ [8209%N] ++ str "9876543210 | info@sittech.edu.in".
Definition WEBSITE : pystr := str "sittech.ac.in".

(** The dictionary built by [load_resources]; a resource that failed to
    load is [None]. *)
Record Resources := {
  index : option SearchIndex;
  data : option (gmap string (list pyval));
  embedder : option SentenceTransformer;
  gemini_model : option GenerativeModel
}.

Definition greeting_alts : list pystr :=
  [str "hi"; str "hello"; str "hey"; str "hlw"; str "hii"] ++ opt_s "greeting".
Definition programs_alts : list pystr :=
  opt_s "course" ++ opt_s "program" ++ opt_s "degree".
Definition admission_alts : list pystr :=
  [str "admission"; str "apply"; str "application"].
Definition hostel_alts : list pystr :=
  [str "hostel"; str "dorm"; str "stay"].

(** [normalize_text] on a string argument. *)
Definition normalize_str (text : pystr) : pystr :=
  let text := strip (lower text) in
  let text := remove_punct text in
  let text := re_sub_words greeting_alts (str "greeting") text in
  let text := re_sub_words programs_alts (str "programs") text in
  let text := re_sub_words admission_alts (str "admission") text in
  let text := re_sub_words hostel_alts (str "hostel") text in
  collapse_ws text.

(** [normalize_text]: [text.lower()] exists on strings only. *)
Definition normalize_text (text : pyval) : exc pystr :=
  match text with
  | PyStr s => Ok (normalize_str s)
  | _ => Raise AttributeError
  end.

(** [not resources['data']]: [None] and the empty dictionary are false. *)
Definition falsy_data (d : option (gmap string (list pyval))) : bool :=
  match d with
  | None => true
  | Some m => bool_decide (m = ∅)
  end.

(** [resources['data'][key]] *)
Definition data_getitem (d : option (gmap string (list pyval))) (key : string)
  : exc (list pyval) :=
  match d with
  | None => Raise TypeError
  | Some m => match m !! key with Some v => Ok v | None => Raise KeyError end
  end.

(** The literal [0.7] as the test [D[0][0] < 0.7] sees it.  [D] is a
    [float32] array and NumPy (from 2.0 on) converts the Python float
    to [float32] before it compares: 11744051 / 2^24, the [float32]
    nearest to 7/10, which lies below 7/10. *)
Definition threshold : Q := 11744051 # 16777216.

(** [x < y] on numbers. *)
Definition Qltb (x y : Q) : bool := negb (Qle_bool y x).

(** [d < y] for an entry of the distance array: false on NaN. *)
Definition lt_number (d : float32) (y : Q) : bool :=
  match d with
  | Number x => Qltb x y
  | Infinity negative => negative
  | NaN => false
  end.

Definition GREETING_REPLY : pystr := str "Hi! How can I help you today?".

(** The [try] block of [get_knowledge_response]; [None] when it falls
    through without returning. *)
Definition vector_search (norm : pystr) (resources : Resources)
    (e : SentenceTransformer) (ix : SearchIndex) : M (option pyval) :=
  vec <- outside (CallEncode [norm]) (encode e [norm]) ;;
  DI <- outside (CallSearch vec 1) (search ix vec 1) ;;
  let '(D, II) := DI in
  D0 <- lift (getitem D 0) ;;
  d <- lift (getitem D0 0) ;;
  if lt_number d threshold then
    answers <- lift (data_getitem (data resources) "answers") ;;
    I0 <- lift (getitem II 0) ;;
    i <- lift (getitem I0 0) ;;
    a <- lift (getitem answers i) ;;
    ret (Some a)
  else ret None.

Definition get_knowledge_response (query : pystr) (resources : Resources)
  : M pyval :=
  if falsy_data (data resources) then ret PyNone else
  norm <- lift (normalize_text (PyStr query)) ;;
  if contains (str "greeting") norm then ret (PyStr GREETING_REPLY) else
  found <- match embedder resources, index resources with
           | Some e, Some ix =>
               try_except (vector_search norm resources e ix) (ret None)
           | _, _ => ret None
           end ;;
  match found with
  | Some a => ret a
  | None => ret PyNone
  end.

Definition NO_MODEL_REPLY : pystr := str "Please contact us: " ++ CONTACT_INFO.
Definition ERROR_REPLY : pystr := str "Please contact: " ++ CONTACT_INFO.

Definition prompt_of (query : pystr) : pystr :=
  str "Answer briefly as " ++ COLLEGE_NAME ++ str " assistant: " ++ query
  ++ str " " ++ str "Contact: " ++ CONTACT_INFO ++ str " | Website: " ++ WEBSITE.

Definition generation_config : GenerationConfig :=
  {| max_output_tokens := 150; temperature := 3 # 10 |}.

Definition gemini_response (query : pystr) (model : option GenerativeModel)
  : M pystr :=
  match model with
  | None => ret NO_MODEL_REPLY
  | Some m =>
      try_except
        (let prompt := prompt_of query in
         response <- outside (CallGenerate prompt generation_config)
                             (generate_content m prompt generation_config) ;;
         t <- lift (text response) ;;
         ret (slice_to 300 (strip t)))
        (ret ERROR_REPLY)
  end.

End Tables.

End App.

(* ===================================================================== *)
(** * build_vector.py *)
(* ===================================================================== *)

Module BuildVector.
Import Py Ext.

Section Tables.
Context {U : Unicode}.

Definition programs_alts : list pystr :=
  opt_s "course" ++ opt_s "program" ++ opt_s "degree".
Definition admission_alts : list pystr :=
  [str "admission"; str "apply"; str "application"].
Definition hostel_alts : list pystr :=
  [str "hostel"; str "dorm"; str "accommodation"].
Definition placement_alts : list pystr :=
  [str "placement"] ++ opt_s "job" ++ [str "recruitment"].
Definition contact_alts : list pystr :=
  [str "contact"; str "phone"; str "email"; str "address"].

(** [normalize_text] past the [isinstance] test. *)
Definition normalize_str (text : pystr) : pystr :=
  let text := lower text in
  let text := remove_punct text in
  let text := re_sub_words programs_alts (str "programs") text in
  let text := re_sub_words admission_alts (str "admission") text in
  let text := re_sub_words hostel_alts (str "hostel") text in
  let text := re_sub_words placement_alts (str "placement") text in
  let text := re_sub_words contact_alts (str "contact") text in
  strip (collapse_ws text).

Definition normalize_text (text : pyval) : exc pystr :=
  match text with
  | PyStr s => Ok (normalize_str s)
  | _ => Ok []
  end.

(** One row of the source table. *)
Record row := {
  question : pyval;
  answer : pyval;
  department : pyval;
  keywords : pyval
}.

Definition DataFrame := list row.

(** [fillna("")] on one cell: a missing value becomes the empty string. *)
Definition fillna (cell : pyval) : pyval :=
  match cell with
  | PyNaN | PyNone => PyStr []
  | v => v
  end.

(** [Series.apply(f)] *)
Fixpoint apply {A B} (f : A -> exc B) (l : list A) : exc (list B) :=
  match l with
  | [] => Ok []
  | x :: r =>
      match f x with
      | Ok y => match apply f r with
                | Ok ys => Ok (y :: ys)
                | Raise e => Raise e
                end
      | Raise e => Raise e
      end
  end.

(** [a.shape[1]]: an array without rows has the shape [(0,)]. *)
Definition shape1 (a : ndarray) : exc nat :=
  match a with
  | [] => Raise IndexError
  | v :: _ => Ok (length v)
  end.

(** [faiss.IndexFlatL2]: the dimension and the stored vectors. *)
Record IndexFlatL2 := {
  d : nat;
  xb : ndarray
}.

Definition ntotal (ix : IndexFlatL2) : nat := length (xb ix).

Definition new_IndexFlatL2 (dim : nat) : IndexFlatL2 := {| d := dim; xb := [] |}.

(** [index.add(x)] asserts that the rows of [x] have the index's dimension. *)
Definition add (ix : IndexFlatL2) (x : ndarray) : exc IndexFlatL2 :=
  if forallb (fun v => Nat.eqb (length v) (d ix)) x
  then Ok {| d := d ix; xb := xb ix ++ x |}
  else Raise AssertionError.

(** The script body from the loaded table [df] to the two artefacts:
    the index written to [index.faiss] and the dictionary pickled to
    [data.pkl]. *)
Definition main (df : DataFrame) (model : SentenceTransformer)
  : M (IndexFlatL2 * gmap string (list pyval)) :=
  let questions := List.map (fun r => fillna (question r)) df in
  normalized <- lift (apply normalize_text questions) ;;
  embeddings <- outside (CallEncode normalized) (encode model normalized) ;;
  dim <- lift (shape1 embeddings) ;;
  index <- lift (add (new_IndexFlatL2 dim) embeddings) ;;
  ret (index,
       <["questions" := questions]>
       (<["answers" := List.map answer df]>
       (<["departments" := List.map department df]>
       (<["keywords" := List.map keywords df]> ∅)))).

End Tables.

End BuildVector.

(* ===================================================================== *)
(** * Concrete resources used to exercise the statements *)
(* ===================================================================== *)

Module Demo.
Import Py Ext.

(** Tables that know no alphanumeric character and no case beyond the
    code point 255.  The statements below are run with them on inputs
    of code points below 256, where the tables beyond play no part. *)
Definition tables : Unicode :=
  {| isalnum_above := fun _ => false;
     lower_above := List.map lower_char |}.

Definition ADMISSION_ANSWER : pystr :=
  str "Admission requires 75% in 12th with PCM. Entrance exam may apply.".
Definition CAMPUS_ANSWER : pystr :=
  str "Our campus is at Salbari, Sukna, Siliguri, West Bengal".

Definition questions : list pyval :=
  [PyStr (str "What are the admission requirements?");
   PyStr (str "Where is the campus located?")].
Definition answers : list pyval :=
  [PyStr ADMISSION_ANSWER; PyStr CAMPUS_ANSWER].

Definition store : gmap string (list pyval) :=
  <["questions" := questions]> (<["answers" := answers]> ∅).

(** An embedder with two-dimensional vectors: the first coordinate is
    the length of the sentence. *)
Definition embedder : SentenceTransformer :=
  {| encode := fun texts =>
       Ok (List.map (fun t => [inject_Z (Z.of_nat (length t)); 0%Q]) texts) |}.

(** An index that reports position 0 at distance [dist]. *)
Definition index_at (dist : Q) : SearchIndex :=
  {| search := fun _ _ => Ok ([ [Number dist] ], [ [0%Z] ]) |}.

Definition broken_index : SearchIndex :=
  {| search := fun _ _ => Raise ExternalError |}.

Definition resources (dist : Q) : App.Resources :=
  {| App.index := Some (index_at dist);
     App.data := Some store;
     App.embedder := Some embedder;
     App.gemini_model := None |}.

(** What [load_resources] yields when the knowledge base failed to load. *)
Definition resources_without_store : App.Resources :=
  {| App.index := None;
     App.data := None;
     App.embedder := Some embedder;
     App.gemini_model := None |}.

(** A hosted model whose call always fails. *)
Definition failing_model : GenerativeModel :=
  {| generate_content := fun _ _ => Raise ExternalError |}.

(** A hosted model that answers with 400 letters [a] between blanks. *)
Definition verbose_model : GenerativeModel :=
  {| generate_content := fun _ _ =>
       Ok {| text := Ok (str "  " ++ repeat 97%N 400 ++ str " ") |} |}.

Definition table : BuildVector.DataFrame :=
  [ {| BuildVector.question := PyStr (str "What are the admission requirements?");
       BuildVector.answer := PyStr ADMISSION_ANSWER;
       BuildVector.department := PyStr (str "Admissions");
       BuildVector.keywords := PyStr (str "admission,requirements") |};
    {| BuildVector.question := PyNaN;
       BuildVector.answer := PyStr (str "Please ask a question about our college!");
       BuildVector.department := PyStr (str "General");
       BuildVector.keywords := PyStr (str "empty,greeting") |} ].

End Demo.

(* ===================================================================== *)
(** * Vocabulary of the statements *)
(* ===================================================================== *)

Module Retrieval.
Import Py Ext App.

Section Tables.
Context {U : Unicode}.

(** The query gets as far as the vector search: the answer store is
    loaded and the greeting shortcut does not fire. *)
Definition reaches_search (query : pystr) (resources : Resources) : Prop :=
  falsy_data (data resources) = false
  /\ contains (str "greeting") (normalize_str query) = false.

(** Embedder and index are available and the nearest-neighbour search
    for [norm] returns the entry [d] of the distance array and the
    position [pos]. *)
Definition search_gives (resources : Resources) (norm : pystr)
    (d : float32) (pos : Z) : Prop :=
  exists e ix x D II D0 I0,
    embedder resources = Some e /\ index resources = Some ix
    /\ encode e [norm] = Ok x /\ search ix x 1 = Ok (D, II)
    /\ getitem D 0 = Ok D0 /\ getitem D0 0 = Ok d
    /\ getitem II 0 = Ok I0 /\ getitem I0 0 = Ok pos.

(** The same, the entry being the number [dist]. *)
Definition search_returns (resources : Resources) (norm : pystr)
    (dist : Q) (pos : Z) : Prop :=
  search_gives resources norm (Number dist) pos.

(** Embedder or index missing, or the embedding or the search raises,
    or the distance array is malformed. *)
Definition search_fails (resources : Resources) (norm : pystr) : Prop :=
  embedder resources = None \/ index resources = None
  \/ exists e ix,
       embedder resources = Some e /\ index resources = Some ix
       /\ ((exists ex, encode e [norm] = Raise ex)
           \/ exists x, encode e [norm] = Ok x
              /\ ((exists ex, search ix x 1 = Raise ex)
                  \/ exists D II, search ix x 1 = Ok (D, II)
                     /\ ((exists ex, getitem D 0 = Raise ex)
                         \/ exists D0 ex, getitem D 0 = Ok D0
                            /\ getitem D0 0 = Raise ex))).

(** [a] is the answer stored at position [pos]. *)
Definition stored_answer (resources : Resources) (pos : Z) (a : pyval) : Prop :=
  exists answers,
    data_getitem (data resources) "answers" = Ok answers
    /\ getitem answers pos = Ok a.

(** The store has no answer list, or no answer at position [pos]. *)
Definition no_stored_answer (resources : Resources) (pos : Z) : Prop :=
  (exists ex, data_getitem (data resources) "answers" = Raise ex)
  \/ exists answers ex,
       data_getitem (data resources) "answers" = Ok answers
       /\ getitem answers pos = Raise ex.

(** The single call to the hosted model fails: [generate_content]
    raises, or reading [.text] of its reply raises. *)
Definition model_call_errors (query : pystr) (m : GenerativeModel) : Prop :=
  (exists ex, generate_content m (prompt_of query) generation_config = Raise ex)
  \/ exists response ex,
       generate_content m (prompt_of query) generation_config = Ok response
       /\ text response = Raise ex.

End Tables.

End Retrieval.

Module Building.
Import Py Ext BuildVector.

Section Tables.
Context {U : Unicode}.

(** The normalised text of one question cell after [fillna]. *)
Definition normalized_cell (cell : pyval) : pystr :=
  match fillna cell with
  | PyStr s => normalize_str s
  | _ => []
  end.

(** The [normalized] column of the table. *)
Definition normalized_column (df : DataFrame) : list pystr :=
  List.map (fun r => normalized_cell (question r)) df.

(** A question cell that is missing or empty. *)
Definition blank (cell : pyval) : Prop :=
  cell = PyNaN \/ cell = PyNone \/ cell = PyStr [].

(** The embedding model answers with a rectangular array that has one
    row per sentence. *)
Definition encodes (model : SentenceTransformer) (texts : list pystr)
    (embeddings : ndarray) : Prop :=
  encode model texts = Ok embeddings
  /\ length embeddings = length texts
  /\ exists dim, Forall (fun v => length v = dim) embeddings.

End Tables.

End Building.

Module Words.
Import Py.

Section Tables.
Context {U : Unicode}.

(** The words of a text: its maximal runs of word characters, as
    [re.findall(r'\w+', text)] lists them. *)
Fixpoint word_runs (s : pystr) : list pystr :=
  match s with
  | [] => []
  | c :: r =>
      if is_word c then
        if head_is_word r then
          match word_runs r with
          | w :: ws => (c :: w) :: ws
          | [] => [[c]]
          end
        else [c] :: word_runs r
      else word_runs r
  end.

(** [' '.join(ws)] *)
Fixpoint join (ws : list pystr) : pystr :=
  match ws with
  | [] => []
  | [w] => w
  | w :: ws' => w ++ 32%N :: join ws'
  end.

Definition mem (w : pystr) (l : list pystr) : bool :=
  if List.in_dec (List.list_eq_dec N.eq_dec) w l then true else false.

(** What one synonym row does to one word. *)
Definition fold_word (alts : list pystr) (repl : pystr) (w : pystr) : pystr :=
  if mem w alts then repl else w.

(** The serve-side table, row after row, on one word. *)
Definition serve_fold (w : pystr) : pystr :=
  fold_word App.hostel_alts (str "hostel")
    (fold_word App.admission_alts (str "admission")
       (fold_word App.programs_alts (str "programs")
          (fold_word App.greeting_alts (str "greeting") w))).

(** The build-side table, row after row, on one word. *)
Definition build_fold (w : pystr) : pystr :=
  fold_word BuildVector.contact_alts (str "contact")
    (fold_word BuildVector.placement_alts (str "placement")
       (fold_word BuildVector.hostel_alts (str "hostel")
          (fold_word BuildVector.admission_alts (str "admission")
             (fold_word BuildVector.programs_alts (str "programs") w)))).

(** The words the two tables treat differently. *)
Definition differing_words : list pystr :=
  [str "hi"; str "hello"; str "hey"; str "hlw"; str "hii"; str "greetings";
   str "stay"; str "accommodation";
   str "jobs"; str "job"; str "recruitment";
   str "phone"; str "email"; str "address"].

(** Every word some row of either table mentions. *)
Definition table_words : list pystr :=
  App.greeting_alts ++ App.programs_alts ++ App.admission_alts
  ++ App.hostel_alts ++ BuildVector.hostel_alts
  ++ BuildVector.placement_alts ++ BuildVector.contact_alts.

(** A well-formed row: every alternative and the replacement are
    non-empty runs of word characters. *)
Definition is_run (w : pystr) : bool :=
  match w with [] => false | _ => forallb is_word w end.

Definition row_ok (alts : list pystr) (repl : pystr) : bool :=
  forallb is_run alts && is_run repl.

(** A character [lower] leaves alone. *)
Definition lowered (c : char) : Prop := lower [c] = [c].

(** A word the normaliser would return: a non-empty run of word
    characters, none of which [lower] changes. *)
Definition settled (w : pystr) : Prop :=
  is_run w = true /\ Forall lowered w.

Definition head_is_space (s : pystr) : bool :=
  match s with [] => false | c :: _ => isspace c end.

(** Only word characters and whitespace, as [remove_punct] leaves it. *)
Definition clean (s : pystr) : Prop :=
  Forall (fun c => is_word c = true \/ isspace c = true) s.

(** What the statements about repeated normalisation use of
    [str.lower], all of it true of CPython's: every character of a
    lowered string is left alone by [lower] ([x.lower() == x] for each
    character [x] of [s.lower()]); a string of such characters is left
    alone as a whole; a lowered string has a word character exactly
    when the string has one; whitespace is left alone. *)
Class LowerLaws : Prop := {
  lower_lowered : forall s, Forall lowered (lower s);
  lowered_fixed : forall t, Forall lowered t -> lower t = t;
  lower_keeps_words : forall s, existsb is_word (lower s) = existsb is_word s;
  space_lowered : forall c, isspace c = true -> lowered c
}.

End Tables.

End Words.

(* ===================================================================== *)
(** * app.py: resource loading and the chat turn *)
(* ===================================================================== *)

Module Shell.
Import Py Ext App.

Section Tables.
Context {U : Unicode}.

(** [bool(v)] *)
Definition truthy (v : pyval) : bool :=
  match v with
  | PyNone => false
  | PyStr s => match s with [] => false | _ => true end
  | PyNaN => true
  | PyInt z => negb (z =? 0)%Z
  end.

Definition head_nonspace (s : pystr) : bool :=
  match s with [] => false | c :: _ => negb (isspace c) end.

(** [s.split()]: the maximal runs of characters that are not
    whitespace. *)
Fixpoint split (s : pystr) : list pystr :=
  match s with
  | [] => []
  | c :: r =>
      if isspace c then split r
      else if head_nonspace r then
             match split r with
             | w :: ws => (c :: w) :: ws
             | [] => [[c]]
             end
           else [c] :: split r
  end.

(** [len(response.split())]: only strings have [split]. *)
Definition count_words (response : pyval) : exc Z :=
  match response with
  | PyStr s => Ok (Z.of_nat (length (split s)))
  | _ => Raise AttributeError
  end.

(** What the process finds when it starts: each field is the outcome
    of one load. *)
Record Environment := {
  read_index : exc SearchIndex;
  pickle_load : exc (gmap string (list pyval));
  load_embedder : exc SentenceTransformer;
  secret_api_key : exc pystr;
  configure_model : pystr -> exc GenerativeModel
}.

(** [load_resources]: the index and the pickled dictionary are loaded
    in one [try] block, the embedder and the hosted model each in its
    own.  (The error banner shown on a failed load is not modelled.) *)
Definition load_resources (env : Environment) : Resources :=
  let kb :=
    match read_index env with
    | Ok ix =>
        match pickle_load env with
        | Ok d => (Some ix, Some d)
        | Raise _ => (None, None)
        end
    | Raise _ => (None, None)
    end in
  {| index := fst kb;
     data := snd kb;
     embedder := match load_embedder env with
                 | Ok e => Some e
                 | Raise _ => None
                 end;
     gemini_model := match secret_api_key env with
                     | Ok key => match configure_model env key with
                                 | Ok m => Some m
                                 | Raise _ => None
                                 end
                     | Raise _ => None
                     end |}.

Inductive role := user | assistant.

Record message := {
  msg_role : role;
  content : pyval
}.

(** [st.session_state] *)
Record SessionState := {
  messages : list message;
  token_count : Z
}.

Definition WELCOME : pystr :=
  str "Hi! I'm the " ++ COLLEGE_NAME ++ str " assistant. "
  ++ str "Ask me about:" ++ [10%N] ++ str "- Courses" ++ [10%N]
  ++ str "- Admission" ++ [10%N]
  ++ str "- Hostel" ++ [10%N] ++ str "- Placements" ++ [10%N] ++ str "- Contact".

(** The session of a first run. *)
Definition fresh_session : SessionState :=
  {| messages := [ {| msg_role := assistant; content := PyStr WELCOME |} ];
     token_count := 0 |}.

(** [if "messages" not in st.session_state: ...] *)
Definition initialize (state : option SessionState) : SessionState :=
  match state with
  | Some s => s
  | None => fresh_session
  end.

(** [st.session_state.messages.append(...)] *)
Definition append_message (s : SessionState) (r : role) (c : pyval) : SessionState :=
  {| messages := messages s ++ [ {| msg_role := r; content := c |} ];
     token_count := token_count s |}.

(** A run of [main]: how it ends, the session it leaves and the
    outside calls it made. *)
Definition Run : Type := (exc unit * SessionState * list call)%type.

(** The part of [main] that answers the input, from the session with
    the user message appended.  (Rendering is not modelled.) *)
Definition answer (input : pystr) (resources : Resources) (s : SessionState) : Run :=
  match get_knowledge_response input resources with
  | (Raise e, l1) => (Raise e, s, l1)
  | (Ok kb_response, l1) =>
      let fallback :=
        if truthy kb_response then (Ok kb_response, [])
        else match gemini_response input (gemini_model resources) with
             | (Ok r, l) => (Ok (PyStr r), l)
             | (Raise e, l) => (Raise e, l)
             end in
      match fallback with
      | (Raise e, l2) => (Raise e, s, l1 ++ l2)
      | (Ok response, l2) =>
          match count_words response with
          | Raise e => (Raise e, s, l1 ++ l2)
          | Ok n =>
              (Ok tt,
               append_message
                 {| messages := messages s; token_count := token_count s + n |}
                 assistant response,
               l1 ++ l2)
          end
      end
  end.

(** One run of [main] with the value [st.chat_input] returned. *)
Definition main (env : Environment) (user_input : option pystr)
    (state : option SessionState) : Run :=
  let resources := load_resources env in
  let s := initialize state in
  match user_input with
  | None | Some [] => (Ok tt, s, [])
  | Some input => answer input resources (append_message s user (PyStr input))
  end.

End Tables.

End Shell.

(** Vocabulary for the statements about the chat turn. *)
Module Turns.
Import Py Ext App Shell.

Section Tables.
Context {U : Unicode}.

Definition outcome (r : Run) : exc unit := fst (fst r).
Definition session (r : Run) : SessionState := snd (fst r).
Definition made_calls (r : Run) : list call := snd r.

(** The roles of a transcript alternate, beginning and ending with the
    assistant. *)
Fixpoint alternates (expect : role) (ms : list message) : bool :=
  match ms with
  | [] => match expect with user => true | assistant => false end
  | m :: r =>
      match expect, msg_role m with
      | assistant, assistant => alternates user r
      | user, user => alternates assistant r
      | _, _ => false
      end
  end.

Definition is_generate (c : call) : bool :=
  match c with CallGenerate _ _ => true | _ => false end.

Definition is_str (v : pyval) : bool :=
  match v with PyStr _ => true | _ => false end.

(** Every stored answer is a string. *)
Definition answers_are_strings (resources : Resources) : Prop :=
  forall answers, data_getitem (data resources) "answers" = Ok answers ->
                  Forall (fun a => is_str a = true) answers.

(** Whitespace occurs only as single blanks. *)
Fixpoint blanks_ok (prev : bool) (t : pystr) : bool :=
  match t with
  | [] => true
  | c :: r =>
      if isspace c then (c =? 32)%N && negb prev && blanks_ok true r
      else blanks_ok false r
  end.

(** One of the greeting words is a word of the text. *)
Definition has_greeting_word (s : pystr) : Prop :=
  exists w, In w (Words.word_runs (remove_punct (lower s)))
            /\ In w greeting_alts.

End Tables.

End Turns.

(** Concrete start-ups and stores used to exercise the statements
    about the chat turn. *)
Module DemoShell.
Import Py Ext App Shell.

(** A hosted model that answers "Please see the website.". *)
Definition helpful_model : GenerativeModel :=
  {| generate_content := fun _ _ =>
       Ok {| text := Ok (str " Please see the website. ") |} |}.

(** A start-up at which everything loads; the index reports position
    [pos] at distance 1/10. *)
Definition environment (store : gmap string (list pyval)) (pos : Z) : Environment :=
  {| read_index := Ok {| search := fun _ _ => Ok ([ [Number (1 # 10)] ], [ [pos] ]) |};
     pickle_load := Ok store;
     load_embedder := Ok Demo.embedder;
     secret_api_key := Ok (str "key");
     configure_model := fun _ => Ok helpful_model |}.

(** A start-up at which the knowledge base files are missing. *)
Definition environment_without_store : Environment :=
  {| read_index := Raise ExternalError;
     pickle_load := Raise ExternalError;
     load_embedder := Ok Demo.embedder;
     secret_api_key := Ok (str "key");
     configure_model := fun _ => Ok helpful_model |}.

(** A store whose second answer cell was empty in the table. *)
Definition store_with_gap : gmap string (list pyval) :=
  <["answers" := [PyStr Demo.ADMISSION_ANSWER; PyNaN; PyStr []]]> ∅.

(** The first row of [Demo.table]. *)
Definition admission_row : BuildVector.row :=
  {| BuildVector.question := PyStr (str "What are the admission requirements?");
     BuildVector.answer := PyStr Demo.ADMISSION_ANSWER;
     BuildVector.department := PyStr (str "Admissions");
     BuildVector.keywords := PyStr (str "admission,requirements") |}.

End DemoShell.

(* ===================================================================== *)
(** * Properties *)
(* ===================================================================== *)

Import Py Ext.

(** ** Substring test *)

Section Contains.

Lemma strip_prefix_app (a s : pystr) : strip_prefix a (a ++ s) = Some s.
Proof.
  induction a as [|x a IH]; simpl; [reflexivity|].
  now rewrite N.eqb_refl.
Qed.

Lemma startswith_app (a s : pystr) : startswith a (a ++ s) = true.
Proof. unfold startswith. now rewrite strip_prefix_app. Qed.

Lemma contains_startswith (a s : pystr) :
  startswith a s = true -> contains a s = true.
Proof. intros H. destruct s; simpl; now rewrite H. Qed.

Lemma contains_infix (a pre post : pystr) :
  contains a (pre ++ a ++ post) = true.
Proof.
  induction pre as [|c pre IH]; simpl.
  - apply contains_startswith, startswith_app.
  - rewrite IH. apply orb_true_r.
Qed.

Lemma contains_suffix (a pre : pystr) : contains a (pre ++ a) = true.
Proof.
  pose proof (contains_infix a pre []) as H. now rewrite app_nil_r in H.
Qed.

End Contains.

(** ** The call monad *)

Section CallMonad.

Context {A : Type}.

Lemma try_except_returns (body : M A) (a : A) :
  exists r l, try_except body (ret a) = (Ok r, l).
Proof.
  destruct body as [[x|e] l]; simpl; eauto.
Qed.

Lemma try_except_raise (body : M A) (a : A) (e : exn) (l : list call) :
  body = (Raise e, l) -> try_except body (ret a) = (Ok a, l).
Proof. intros ->. simpl. now rewrite app_nil_r. Qed.

Lemma try_except_ok (body handler : M A) (a : A) (l : list call) :
  body = (Ok a, l) -> try_except body handler = (Ok a, l).
Proof. now intros ->. Qed.

End CallMonad.

(** ** Retriever *)

Section Retriever.
Import App Retrieval.
Context {U : Unicode}.

Lemma Qltb_lt (x y : Q) : Qltb x y = true <-> (x < y)%Q.
Proof.
  unfold Qltb. rewrite negb_true_iff. split.
  - intros H. apply Qnot_le_lt. intros Hle.
    apply Qle_bool_iff in Hle. congruence.
  - intros H. destruct (Qle_bool y x) eqn:E; [|reflexivity].
    apply Qle_bool_iff in E. exfalso. exact (Qlt_not_le _ _ H E).
Qed.

Lemma Qltb_ge (x y : Q) : Qltb x y = false <-> (y <= x)%Q.
Proof.
  unfold Qltb. rewrite negb_false_iff. apply Qle_bool_iff.
Qed.

(** Past the store test and the greeting test the reply is what the
    guarded vector search found. *)
Lemma get_knowledge_response_searched (query : pystr) (resources : Resources) :
  reaches_search query resources ->
  get_knowledge_response query resources =
    (found <- match embedder resources, index resources with
              | Some e, Some ix =>
                  try_except
                    (vector_search (normalize_str query) resources e ix)
                    (ret None)
              | _, _ => ret None
              end ;;
     match found with Some a => ret a | None => ret PyNone end).
Proof.
  intros [Hd Hg]. unfold get_knowledge_response.
  rewrite Hd. cbn [normalize_text lift bind app].
  rewrite Hg. destruct (found <- _ ;; _) as [r l]. reflexivity.
Qed.

Lemma get_knowledge_response_returns (query : pystr) (resources : Resources) :
  exists r l, get_knowledge_response query resources = (Ok r, l).
Proof.
  unfold get_knowledge_response.
  destruct (falsy_data (data resources)); [unfold ret; eauto|].
  cbn [normalize_text lift bind app].
  destruct (contains _ _); [unfold ret; eauto|].
  destruct (embedder resources) as [e|], (index resources) as [ix|];
    try (cbn; eauto; fail).
  destruct (try_except_returns
              (vector_search (normalize_str query) resources e ix) None)
    as (r & l & ->).
  destruct r; cbn; eauto.
Qed.

Lemma lt_number_lt (dist y : Q) : lt_number (Number dist) y = true <-> (dist < y)%Q.
Proof. apply Qltb_lt. Qed.

Lemma lt_number_ge (dist y : Q) : lt_number (Number dist) y = false <-> (y <= dist)%Q.
Proof. apply Qltb_ge. Qed.

(** The float32 nearest to 7/10 lies below it, less than half a unit
    in the last place away. *)
Lemma threshold_rounds_0_7 :
  (threshold < 7 # 10)%Q /\ ((7 # 10) - threshold < 1 # 33554432)%Q.
Proof. split; reflexivity. Qed.

Ltac run_search :=
  unfold vector_search, outside, lift, bind, ret;
  repeat match goal with
         | H : _ = Ok _ |- _ => rewrite H
         | H : _ = Raise _ |- _ => rewrite H
         | H : lt_number _ _ = _ |- _ => rewrite H
         end.

Lemma vector_search_accept norm resources e ix x D II D0 I0 dist pos answers a :
  encode e [norm] = Ok x -> search ix x 1 = Ok (D, II) ->
  getitem D 0 = Ok D0 -> getitem D0 0 = Ok (Number dist) ->
  getitem II 0 = Ok I0 -> getitem I0 0 = Ok pos ->
  (dist < threshold)%Q ->
  data_getitem (data resources) "answers" = Ok answers ->
  getitem answers pos = Ok a ->
  vector_search norm resources e ix
  = (Ok (Some a), [CallEncode [norm]; CallSearch x 1]).
Proof.
  intros He Hs HD HD0 HI HI0 Hlt%lt_number_lt Hans Ha.
  now run_search.
Qed.

Lemma vector_search_reject norm resources e ix x D II D0 d :
  encode e [norm] = Ok x -> search ix x 1 = Ok (D, II) ->
  getitem D 0 = Ok D0 -> getitem D0 0 = Ok d ->
  lt_number d threshold = false ->
  vector_search norm resources e ix
  = (Ok None, [CallEncode [norm]; CallSearch x 1]).
Proof.
  intros He Hs HD HD0 Hge.
  now run_search.
Qed.

Lemma vector_search_no_answer norm resources e ix x D II D0 I0 dist pos :
  encode e [norm] = Ok x -> search ix x 1 = Ok (D, II) ->
  getitem D 0 = Ok D0 -> getitem D0 0 = Ok (Number dist) ->
  getitem II 0 = Ok I0 -> getitem I0 0 = Ok pos ->
  (dist < threshold)%Q ->
  no_stored_answer resources pos ->
  exists ex l, vector_search norm resources e ix = (Raise ex, l).
Proof.
  intros He Hs HD HD0 HI HI0 Hlt%lt_number_lt [[ex Hx]|(answers & ex & Hans & Hx)];
    run_search; eauto.
Qed.

Lemma vector_search_failure norm resources e ix :
  embedder resources = Some e -> index resources = Some ix ->
  search_fails resources norm ->
  exists ex l, vector_search norm resources e ix = (Raise ex, l).
Proof.
  intros Hemb Hidx [H|[H|(e' & ix' & He' & Hix' & H)]]; try congruence.
  assert (e' = e) as -> by congruence.
  assert (ix' = ix) as -> by congruence.
  destruct H as [[ex H]|(x & Hx & [[ex H]|(D & II & HDI & [[ex H]|(D0 & ex & HD & H)])])];
    run_search; eauto.
Qed.

(** No match is the reply whenever the guarded search did not return
    an answer. *)
Lemma no_match_of_raise (query : pystr) (resources : Resources) e ix ex l :
  reaches_search query resources ->
  embedder resources = Some e -> index resources = Some ix ->
  vector_search (normalize_str query) resources e ix = (Raise ex, l) ->
  get_knowledge_response query resources = (Ok PyNone, l).
Proof.
  intros Hr He Hix Hv.
  rewrite (get_knowledge_response_searched _ _ Hr), He, Hix.
  rewrite (try_except_raise _ None ex l Hv). cbn. now rewrite app_nil_r.
Qed.

(** No match as well when the entry of the distance array does not
    pass the test. *)
Lemma no_match_of_far (query : pystr) (resources : Resources) d pos :
  reaches_search query resources ->
  search_gives resources (normalize_str query) d pos ->
  lt_number d threshold = false ->
  result (get_knowledge_response query resources) = Ok PyNone.
Proof.
  intros Hr (e & ix & x & D & II & D0 & I0 & He & Hix & Henc & Hs
             & HD & HD0 & HI & HI0) Hfar.
  rewrite (get_knowledge_response_searched _ _ Hr), He, Hix.
  rewrite (try_except_ok _ _ _ _
             (vector_search_reject _ _ _ _ _ _ _ _ _ Henc Hs HD HD0 Hfar)).
  reflexivity.
Qed.

Lemma get_knowledge_response_no_store (query : pystr) (resources : Resources) :
  falsy_data (data resources) = true ->
  get_knowledge_response query resources = (Ok PyNone, []).
Proof.
  intros Hd. unfold get_knowledge_response. now rewrite Hd.
Qed.

(** A store that holds an answer is a loaded, non-empty store. *)
Lemma stored_answer_store (resources : Resources) (pos : Z) (a : pyval) :
  stored_answer resources pos a -> falsy_data (data resources) = false.
Proof.
  intros (answers & Hans & _). unfold data_getitem, falsy_data in *.
  destruct (data resources) as [m|]; [|discriminate].
  apply bool_decide_eq_false. intros ->.
  rewrite lookup_empty in Hans. discriminate.
Qed.

(** [C1], amended.  For every query whose normalised form does not
    contain "greeting": when embedder and index are available and the
    nearest-neighbour search returns a distance and a position, the
    match is accepted exactly when the distance passes the test
    [D[0][0] < 0.7], which is made in float32: when the distance is
    strictly below 11744051/2^24, the float32 nearest to 0.7 (so that
    this very distance, although below 7/10, is rejected).  On
    acceptance the reply is the answer stored at the position; a
    distance at or above that threshold, a distance that is NaN or
    infinite, a missing answer store, embedder or index, an error of
    the embedding or of the search, a malformed distance array and an
    absent answer all give no-match.  On every input, greetings
    included, the function returns: it never raises. *)
Theorem retrieve_accepts_below_threshold (query : pystr) (resources : Resources) :
  (exists r l, get_knowledge_response query resources = (Ok r, l))
  /\ (contains (str "greeting") (normalize_str query) = false ->
      (forall dist pos,
          search_returns resources (normalize_str query) dist pos ->
          ((dist < threshold)%Q ->
             forall a, stored_answer resources pos a ->
                       result (get_knowledge_response query resources) = Ok a)
          /\ ((dist < threshold)%Q ->
              no_stored_answer resources pos ->
              result (get_knowledge_response query resources) = Ok PyNone)
          /\ ((threshold <= dist)%Q ->
              result (get_knowledge_response query resources) = Ok PyNone))
      /\ (forall d pos,
            search_gives resources (normalize_str query) d pos ->
            d = NaN \/ d = Infinity false ->
            result (get_knowledge_response query resources) = Ok PyNone)
      /\ (search_fails resources (normalize_str query) ->
          result (get_knowledge_response query resources) = Ok PyNone)
      /\ (falsy_data (data resources) = true ->
          result (get_knowledge_response query resources) = Ok PyNone))
  /\ threshold == 11744051 # 16777216.
Proof.
  split; [apply get_knowledge_response_returns|].
  split; [|reflexivity].
  intros Hg.
  destruct (falsy_data (data resources)) eqn:Hd.
  { (* the store is missing or empty: no-match, and no stored answer *)
    pose proof (get_knowledge_response_no_store query _ Hd) as Hnone.
    split; [|split; [|split] ].
    - intros dist pos _. split; [|split].
      + intros _ a Ha. apply stored_answer_store in Ha. congruence.
      + intros _ _. now rewrite Hnone.
      + intros _. now rewrite Hnone.
    - intros d pos _ _. now rewrite Hnone.
    - intros _. now rewrite Hnone.
    - intros _. now rewrite Hnone. }
  assert (Hr : reaches_search query resources) by (split; assumption).
  split; [|split; [|split] ].
  - intros dist pos Hsearch.
    pose proof Hsearch as (e & ix & x & D & II & D0 & I0 & He & Hix & Henc & Hs
                           & HD & HD0 & HI & HI0).
    split; [|split].
    + intros Hlt a (answers & Hans & Ha).
      rewrite (get_knowledge_response_searched _ _ Hr), He, Hix.
      rewrite (try_except_ok _ _ _ _
                 (vector_search_accept _ _ _ _ _ _ _ _ _ _ _ _ _
                    Henc Hs HD HD0 HI HI0 Hlt Hans Ha)).
      reflexivity.
    + intros Hlt Hno.
      destruct (vector_search_no_answer _ _ _ _ _ _ _ _ _ _ _
                  Henc Hs HD HD0 HI HI0 Hlt Hno) as (ex & l & Hv).
      now rewrite (no_match_of_raise _ _ _ _ _ _ Hr He Hix Hv).
    + intros Hge%lt_number_ge. exact (no_match_of_far _ _ _ _ Hr Hsearch Hge).
  - intros d pos Hsearch Hd'. apply (no_match_of_far _ _ _ _ Hr Hsearch).
    now destruct Hd' as [-> | ->].
  - intros Hf.
    destruct (embedder resources) as [e|] eqn:He;
      [destruct (index resources) as [ix|] eqn:Hix|].
    + destruct (vector_search_failure _ _ _ _ He Hix Hf) as (ex & l & Hv).
      now rewrite (no_match_of_raise _ _ _ _ _ _ Hr He Hix Hv).
    + rewrite (get_knowledge_response_searched _ _ Hr), He, Hix. reflexivity.
    + rewrite (get_knowledge_response_searched _ _ Hr), He. reflexivity.
  - discriminate.
Qed.

(** The greeting test comes after the store test and before anything
    that reaches the embedder or the index. *)
Lemma get_knowledge_response_greeting (query : pystr) (resources : Resources) :
  falsy_data (data resources) = false ->
  contains (str "greeting") (normalize_str query) = true ->
  get_knowledge_response query resources = (Ok (PyStr GREETING_REPLY), []).
Proof.
  intros Hd Hg. unfold get_knowledge_response.
  rewrite Hd. cbn [normalize_text lift bind app].
  now rewrite Hg.
Qed.

(** [C2], amended.  For every query whose normalised form contains
    "greeting": when the answer store is loaded and non-empty the reply
    is the fixed greeting text and neither the embedder nor the index
    is called, whatever the index, the embedder and the stored answers
    are; when the answer store is missing or empty the reply is
    no-match, again without any call. *)
Theorem greeting_shortcut_given_store (query : pystr) (resources : Resources) :
  contains (str "greeting") (normalize_str query) = true ->
  (falsy_data (data resources) = false ->
   get_knowledge_response query resources = (Ok (PyStr GREETING_REPLY), []))
  /\ (falsy_data (data resources) = true ->
      get_knowledge_response query resources = (Ok PyNone, [])).
Proof.
  intros Hg. split; intros Hd.
  - now apply get_knowledge_response_greeting.
  - now apply get_knowledge_response_no_store.
Qed.

(** [C10], amended.  The greeting test is a substring test on the
    normalised text: wherever "greeting" occurs in it, also inside a
    longer word that no synonym rule produced, the reply is the fixed
    greeting text when the answer store is loaded and non-empty, and
    no-match when the answer store is missing or empty; in both cases
    no call to the embedder or the index is made. *)
Theorem greeting_shortcut_is_substring
    (query : pystr) (resources : Resources) (before after : pystr) :
  normalize_str query = before ++ str "greeting" ++ after ->
  (falsy_data (data resources) = false ->
   get_knowledge_response query resources = (Ok (PyStr GREETING_REPLY), []))
  /\ (falsy_data (data resources) = true ->
      get_knowledge_response query resources = (Ok PyNone, [])).
Proof.
  intros Hn. split; intros Hd.
  - apply get_knowledge_response_greeting; [exact Hd|].
    rewrite Hn. apply contains_infix.
  - now apply get_knowledge_response_no_store.
Qed.

End Retriever.

(** ** Retriever: the statements at concrete inputs *)

Section RetrieverExamples.
Import App Retrieval.
#[local] Existing Instance Demo.tables.

(** [C1], as stated, fails, in two places.  With the answer store
    loaded and embedder and index missing, the query "hello" gets the
    greeting text, not no-match.  And a search that returns the float32
    nearest to 0.7, a distance strictly less than 0.7, with an answer
    stored at the position, is not accepted. *)
Lemma retrieve_greets_without_index_and_rejects_float32_0_7 :
  (contains (str "greeting") (normalize_str (str "hello")) = true
   /\ result (get_knowledge_response (str "hello")
                {| index := None; data := Some Demo.store;
                   embedder := None; gemini_model := None |})
      = Ok (PyStr GREETING_REPLY)
   /\ result (get_knowledge_response (str "hello")
                {| index := None; data := Some Demo.store;
                   embedder := None; gemini_model := None |})
      <> Ok PyNone)
  /\ ((11744051 # 16777216 < 7 # 10)%Q
      /\ search_returns (Demo.resources (11744051 # 16777216))
           (normalize_str (str "How do I apply?")) (11744051 # 16777216) 0
      /\ stored_answer (Demo.resources (11744051 # 16777216)) 0
           (PyStr Demo.ADMISSION_ANSWER)
      /\ result (get_knowledge_response (str "How do I apply?")
                   (Demo.resources (11744051 # 16777216)))
         = Ok PyNone).
Proof.
  split.
  - split; [vm_compute; reflexivity|].
    split; [vm_compute; reflexivity|].
    vm_compute. discriminate.
  - split; [reflexivity|].
    split.
    { exists Demo.embedder, (Demo.index_at (11744051 # 16777216)).
      repeat eexists; vm_compute; reflexivity. }
    split.
    { exists Demo.answers. split; vm_compute; reflexivity. }
    vm_compute. reflexivity.
Qed.

Lemma retrieve_accepts_below_threshold_witness :
  result (get_knowledge_response (str "How do I apply?") (Demo.resources (1 # 2)))
  = Ok (PyStr Demo.ADMISSION_ANSWER)
  /\ result (get_knowledge_response (str "How do I apply?") (Demo.resources (7 # 10)))
     = Ok PyNone
  /\ result (get_knowledge_response (str "How do I apply?")
               {| index := Some {| search := fun _ _ => Ok ([ [NaN] ], [ [0%Z] ]) |};
                  data := Some Demo.store;
                  embedder := Some Demo.embedder;
                  gemini_model := None |})
     = Ok PyNone
  /\ result (get_knowledge_response (str "How do I apply?")
               {| index := Some Demo.broken_index;
                  data := Some Demo.store;
                  embedder := Some Demo.embedder;
                  gemini_model := None |})
     = Ok PyNone.
Proof.
  split; [|split; [|split] ].
  - destruct (retrieve_accepts_below_threshold
                (str "How do I apply?") (Demo.resources (1 # 2))) as (_ & H & _).
    destruct H as (H & _); [vm_compute; reflexivity|].
    destruct (H (1 # 2) 0%Z) as [Ha _].
    + exists Demo.embedder, (Demo.index_at (1 # 2)).
      repeat eexists; vm_compute; reflexivity.
    + apply Ha; [reflexivity|].
      exists Demo.answers. split; vm_compute; reflexivity.
  - destruct (retrieve_accepts_below_threshold
                (str "How do I apply?") (Demo.resources (7 # 10))) as (_ & H & _).
    destruct H as (H & _); [vm_compute; reflexivity|].
    destruct (H (7 # 10) 0%Z) as (_ & _ & Hr).
    + exists Demo.embedder, (Demo.index_at (7 # 10)).
      repeat eexists; vm_compute; reflexivity.
    + apply Hr. unfold threshold, Qle. simpl. lia.
  - match goal with
    | |- result (get_knowledge_response ?q ?r) = _ =>
        destruct (retrieve_accepts_below_threshold q r) as (_ & H & _)
    end.
    destruct H as (_ & H & _); [vm_compute; reflexivity|].
    apply (H NaN 0%Z); [|left; reflexivity].
    eexists Demo.embedder, _. repeat eexists; vm_compute; reflexivity.
  - match goal with
    | |- result (get_knowledge_response ?q ?r) = _ =>
        destruct (retrieve_accepts_below_threshold q r) as (_ & H & _)
    end.
    destruct H as (_ & _ & H & _); [vm_compute; reflexivity|].
    apply H. right. right.
    exists Demo.embedder, Demo.broken_index.
    split; [reflexivity|]. split; [reflexivity|]. right.
    eexists. split; [vm_compute; reflexivity|]. left. eexists. reflexivity.
Defined.

(** [C2], as stated, fails: with the knowledge base not loaded, a
    greeting gets no-match, not the greeting text. *)
Lemma greeting_without_store_is_no_match :
  contains (str "greeting") (normalize_str (str "hello")) = true
  /\ data Demo.resources_without_store = None
  /\ get_knowledge_response (str "hello") Demo.resources_without_store
     = (Ok PyNone, [])
  /\ result (get_knowledge_response (str "hello") Demo.resources_without_store)
     <> Ok (PyStr GREETING_REPLY).
Proof.
  repeat split; try (vm_compute; reflexivity).
  vm_compute. discriminate.
Qed.

Lemma greeting_shortcut_given_store_witness :
  get_knowledge_response (str "Hey, anyone there?")
    {| index := None; data := Some Demo.store;
       embedder := None; gemini_model := None |}
  = (Ok (PyStr GREETING_REPLY), []).
Proof.
  apply (greeting_shortcut_given_store (str "Hey, anyone there?")).
  - vm_compute. reflexivity.
  - vm_compute. reflexivity.
Defined.

(** [C10], as stated, fails: with an empty answer store, a query whose
    normalised text contains "greeting" inside a longer word gets
    no-match, not the greeting reply. *)
Lemma greeting_substring_with_empty_store_is_no_match :
  normalize_str (str "Two greetingcards, please")
  = str "two " ++ str "greeting" ++ str "cards please"
  /\ get_knowledge_response (str "Two greetingcards, please")
       {| index := Some (Demo.index_at (1 # 2)); data := Some ∅;
          embedder := Some Demo.embedder; gemini_model := None |}
     = (Ok PyNone, [])
  /\ result (get_knowledge_response (str "Two greetingcards, please")
               {| index := Some (Demo.index_at (1 # 2)); data := Some ∅;
                  embedder := Some Demo.embedder; gemini_model := None |})
     <> Ok (PyStr GREETING_REPLY).
Proof.
  split; [vm_compute; reflexivity|].
  split; [reflexivity|].
  cbn. discriminate.
Qed.

(** "greetingcards" is left alone by every synonym rule, and still
    triggers the shortcut. *)
Lemma greeting_shortcut_is_substring_witness :
  normalize_str (str "Two greetingcards, please") = str "two greetingcards please"
  /\ get_knowledge_response (str "Two greetingcards, please") (Demo.resources (1 # 2))
     = (Ok (PyStr GREETING_REPLY), []).
Proof.
  split; [vm_compute; reflexivity|].
  apply (greeting_shortcut_is_substring _ _ (str "two ") (str "cards please")).
  - vm_compute. reflexivity.
  - vm_compute. reflexivity.
Defined.

End RetrieverExamples.

(** ** Fallback responder *)

Section Responder.
Import App Retrieval.

Lemma gemini_response_error (query : pystr) (m : GenerativeModel) :
  model_call_errors query m ->
  gemini_response query (Some m)
  = (Ok ERROR_REPLY, [CallGenerate (prompt_of query) generation_config]).
Proof.
  intros [[ex H]|(response & ex & H & Ht)];
    unfold gemini_response, try_except, outside, lift, bind, ret;
    rewrite H; [|rewrite Ht]; reflexivity.
Qed.

Lemma gemini_response_success (query : pystr) (m : GenerativeModel) response t :
  generate_content m (prompt_of query) generation_config = Ok response ->
  text response = Ok t ->
  gemini_response query (Some m)
  = (Ok (slice_to 300 (strip t)),
     [CallGenerate (prompt_of query) generation_config]).
Proof.
  intros H Ht.
  unfold gemini_response, try_except, outside, lift, bind, ret.
  now rewrite H, Ht.
Qed.

(** [C3], as stated, fails: the reply after a failed model call is not
    the reply given when no model is configured. *)
Lemma error_reply_differs_from_no_model_reply :
  model_call_errors (str "What are the fees?") Demo.failing_model
  /\ result (gemini_response (str "What are the fees?") (Some Demo.failing_model))
     <> result (gemini_response (str "What are the fees?") None).
Proof.
  split.
  - left. eexists. reflexivity.
  - vm_compute. discriminate.
Qed.

(** [C3], amended.  For every query, when the call to the hosted model
    fails, the reply is the static text "Please contact: " followed by
    the contact information (the text used when no model is configured
    is "Please contact us: " followed by the same contact information),
    and the model has been called exactly once. *)
Theorem respond_on_model_error (query : pystr) (m : GenerativeModel) :
  model_call_errors query m ->
  result (gemini_response query (Some m))
  = Ok (str "Please contact: " ++ CONTACT_INFO)
  /\ contains CONTACT_INFO (str "Please contact: " ++ CONTACT_INFO) = true
  /\ result (gemini_response query None)
     = Ok (str "Please contact us: " ++ CONTACT_INFO)
  /\ calls (gemini_response query (Some m))
     = [CallGenerate (prompt_of query) generation_config].
Proof.
  intros H. rewrite (gemini_response_error _ _ H).
  split; [reflexivity|].
  split; [apply contains_suffix|].
  split; reflexivity.
Qed.

Lemma respond_on_model_error_witness :
  result (gemini_response (str "What are the fees?") (Some Demo.failing_model))
  = Ok (str "Please contact: " ++ CONTACT_INFO)
  /\ calls (gemini_response (str "What are the fees?") (Some Demo.failing_model))
     = [CallGenerate (prompt_of (str "What are the fees?")) generation_config].
Proof.
  destruct (respond_on_model_error (str "What are the fees?") Demo.failing_model)
    as (Hr & _ & _ & Hc).
  - left. eexists. reflexivity.
  - split; [exact Hr | exact Hc].
Defined.

(** [C5] Whatever the query and whatever the hosted model does, the
    reply has at most 300 characters; a text the model returns is
    stripped and cut to its first 300 characters. *)
Theorem respond_at_most_300_chars (query : pystr) (model : option GenerativeModel) :
  (exists r l, gemini_response query model = (Ok r, l) /\ length r <= 300)
  /\ (forall m response t,
        model = Some m ->
        generate_content m (prompt_of query) generation_config = Ok response ->
        text response = Ok t ->
        result (gemini_response query model) = Ok (firstn 300 (strip t))).
Proof.
  split.
  - destruct model as [m|].
    + destruct (generate_content m (prompt_of query) generation_config)
        as [response|ex] eqn:Hg;
        [destruct (text response) as [t|ex] eqn:Ht|].
      * rewrite (gemini_response_success _ _ _ _ Hg Ht).
        do 2 eexists. split; [reflexivity|].
        unfold slice_to. rewrite length_firstn. lia.
      * rewrite (gemini_response_error query m) by (right; eauto).
        do 2 eexists. split; [reflexivity|]. vm_compute. lia.
      * rewrite (gemini_response_error query m) by (left; eauto).
        do 2 eexists. split; [reflexivity|]. vm_compute. lia.
    + do 2 eexists. split; [reflexivity|]. vm_compute. lia.
  - intros m response t -> Hg Ht.
    now rewrite (gemini_response_success _ _ _ _ Hg Ht).
Qed.

Lemma respond_at_most_300_chars_witness :
  result (gemini_response (str "Tell me everything") (Some Demo.verbose_model))
  = Ok (repeat 97%N 300).
Proof.
  destruct (respond_at_most_300_chars
              (str "Tell me everything") (Some Demo.verbose_model)) as [_ H].
  rewrite (H Demo.verbose_model
             {| text := Ok (str "  " ++ repeat 97%N 400 ++ str " ") |}
             (str "  " ++ repeat 97%N 400 ++ str " "));
    try reflexivity.
Defined.

(** [C6] Without a model handle the reply is, for every query, the
    fixed text "Please contact us: " followed by the contact
    information, and no call to a hosted model is made. *)
Theorem respond_without_model (query : pystr) :
  gemini_response query None
  = (Ok (str "Please contact us: " ++ CONTACT_INFO), [])
  /\ contains CONTACT_INFO (str "Please contact us: " ++ CONTACT_INFO) = true.
Proof.
  split; [reflexivity|]. apply contains_suffix.
Qed.

End Responder.

(** ** Index builder *)

Section Builder.
Import BuildVector Building.
Context {U : Unicode}.

Lemma apply_normalize_text (cells : list pyval) :
  apply normalize_text (List.map fillna cells)
  = Ok (List.map normalized_cell cells).
Proof.
  induction cells as [|c cells IH]; [reflexivity|].
  cbn [List.map apply]. rewrite IH.
  unfold normalized_cell. now destruct c.
Qed.

Lemma normalized_cell_blank (cell : pyval) : blank cell -> normalized_cell cell = [].
Proof. intros [->|[->| ->]]; reflexivity. Qed.

Lemma add_to_new (dim : nat) (x : ndarray) :
  Forall (fun v => length v = dim) x ->
  add (new_IndexFlatL2 dim) x = Ok {| d := dim; xb := x |}.
Proof.
  intros H. unfold add. cbn [d xb new_IndexFlatL2 app].
  replace (forallb (fun v => Nat.eqb (length v) dim) x) with true; [reflexivity|].
  symmetry. apply forallb_forall. intros v Hv.
  apply Nat.eqb_eq. rewrite List.Forall_forall in H. now apply H.
Qed.

Lemma add_ntotal (ix ix' : IndexFlatL2) (x : ndarray) :
  add ix x = Ok ix' -> ntotal ix' = ntotal ix + length x.
Proof.
  unfold add, ntotal.
  destruct (forallb (fun v => Nat.eqb (length v) (d ix)) x); [|discriminate].
  intros [= <-]. cbn. now rewrite length_app.
Qed.

Lemma main_unfold (df : DataFrame) (model : SentenceTransformer) :
  main df model
  = (embeddings <- outside (CallEncode (normalized_column df))
                           (encode model (normalized_column df)) ;;
     dim <- lift (shape1 embeddings) ;;
     index <- lift (add (new_IndexFlatL2 dim) embeddings) ;;
     ret (index,
          <["questions" := List.map (fun r => fillna (question r)) df]>
          (<["answers" := List.map answer df]>
          (<["departments" := List.map department df]>
          (<["keywords" := List.map keywords df]> ∅))))).
Proof.
  unfold main.
  replace (List.map (fun r => fillna (question r)) df)
    with (List.map fillna (List.map question df)) by now rewrite map_map.
  rewrite apply_normalize_text.
  unfold normalized_column. rewrite <- (map_map question normalized_cell).
  cbn [lift bind app].
  destruct (embeddings <- _ ;; _) as [r l]. reflexivity.
Qed.

(** Whenever the build comes to its end, index and answer store have
    the same size, provided the embedding model returned one row per
    sentence. *)
Lemma main_aligned_if_returns (df : DataFrame) (model : SentenceTransformer)
    (index : IndexFlatL2) (store : gmap string (list pyval)) :
  (forall emb, encode model (normalized_column df) = Ok emb ->
               length emb = length df) ->
  result (main df model) = Ok (index, store) ->
  exists answers, store !! "answers" = Some answers
                  /\ ntotal index = length answers.
Proof.
  intros Hlen. rewrite main_unfold. unfold outside, lift, bind, ret, result.
  destruct (encode model (normalized_column df)) as [emb|] eqn:He;
    [|discriminate].
  destruct (shape1 emb) as [dim|]; [|discriminate].
  destruct (add (new_IndexFlatL2 dim) emb) as [ix|] eqn:Ha; [|discriminate].
  cbn. intros [= <- <-].
  exists (List.map answer df). split; [reflexivity|].
  rewrite (add_ntotal _ _ _ Ha). cbn.
  now rewrite length_map, (Hlen _ eq_refl).
Qed.

Lemma main_returns (df : DataFrame) (model : SentenceTransformer)
    (embeddings : ndarray) :
  df <> [] ->
  encodes model (normalized_column df) embeddings ->
  exists index store,
    main df model = (Ok (index, store), [CallEncode (normalized_column df)])
    /\ xb index = embeddings
    /\ store !! "answers" = Some (List.map answer df).
Proof.
  intros Hne (Henc & Hlen & dim & Hdim).
  assert (Hcol : length (normalized_column df) = length df)
    by (unfold normalized_column; apply length_map).
  destruct embeddings as [|v emb].
  { destruct df; [congruence|]. cbn in Hcol. cbn in Hlen. lia. }
  exists {| d := length v; xb := v :: emb |}. eexists.
  rewrite main_unfold. unfold outside, lift, bind, ret.
  rewrite Henc. cbn [shape1].
  rewrite add_to_new.
  2:{ inversion Hdim; subst. assumption. }
  split; [reflexivity|]. split; reflexivity.
Qed.

(** [C7] Whenever the build comes to its end (the embedding model
    having answered with one vector per sentence), the index holds as
    many vectors as the answer store holds answers, one per source row;
    for a non-empty table the build does come to its end; and a row
    whose question is missing or empty is embedded, as the empty
    string, and indexed like the others. *)
Theorem build_index_matches_answers (df : DataFrame) (model : SentenceTransformer) :
  (forall index store,
      (forall emb, encode model (normalized_column df) = Ok emb ->
                   length emb = length df) ->
      result (main df model) = Ok (index, store) ->
      exists answers, store !! "answers" = Some answers
                      /\ ntotal index = length answers
                      /\ ntotal index = length df)
  /\ (forall embeddings,
        df <> [] ->
        encodes model (normalized_column df) embeddings ->
        exists index store,
          main df model = (Ok (index, store), [CallEncode (normalized_column df)])
          /\ xb index = embeddings
          /\ store !! "answers" = Some (List.map answer df)
          /\ ntotal index = length (List.map answer df))
  /\ length (normalized_column df) = length df
  /\ (forall i r, nth_error df i = Some r -> blank (question r) ->
                  nth_error (normalized_column df) i = Some []).
Proof.
  assert (Hcol : length (normalized_column df) = length df)
    by (unfold normalized_column; apply length_map).
  split; [|split; [|split]].
  - intros index store Hlen Hres.
    destruct (main_aligned_if_returns _ _ _ _ Hlen Hres) as (answers & Hs & Hn).
    exists answers. split; [exact Hs|]. split; [exact Hn|].
    revert Hres. rewrite main_unfold. unfold outside, lift, bind, ret, result.
    destruct (encode model (normalized_column df)) as [emb|] eqn:He;
      [|discriminate].
    destruct (shape1 emb) as [dim|]; [|discriminate].
    destruct (add (new_IndexFlatL2 dim) emb) as [ix|] eqn:Ha; [|discriminate].
    cbn. intros [= <- _]. rewrite (add_ntotal _ _ _ Ha). cbn.
    now apply Hlen.
  - intros embeddings Hne Henc.
    destruct (main_returns _ _ _ Hne Henc) as (index & store & Hm & Hx & Hs).
    exists index, store. repeat (split; [assumption|]).
    unfold ntotal. rewrite Hx, length_map.
    destruct Henc as (_ & Hlen & _). lia.
  - exact Hcol.
  - intros i r Hr Hb. unfold normalized_column.
    rewrite nth_error_map, Hr. cbn. now rewrite normalized_cell_blank.
Qed.

End Builder.

(** ** Index builder: the statements at concrete inputs *)

Section BuilderExamples.
Import BuildVector Building.
#[local] Existing Instance Demo.tables.

Lemma build_index_matches_answers_witness :
  exists index store,
    result (main Demo.table Demo.embedder) = Ok (index, store)
    /\ ntotal index = 2
    /\ store !! "answers" = Some (List.map answer Demo.table)
    /\ nth_error (normalized_column Demo.table) 1 = Some [].
Proof.
  destruct (build_index_matches_answers Demo.table Demo.embedder)
    as (_ & Hm & _ & Hb).
  destruct (Hm [[35%Q; 0%Q]; [0%Q; 0%Q]])
    as (index & store & Hr & _ & Hs & Hn).
  - discriminate.
  - split; [vm_compute; reflexivity|]. split; [reflexivity|].
    exists 2. repeat constructor.
  - exists index, store. rewrite Hr.
    split; [reflexivity|]. split; [exact Hn|]. split; [exact Hs|].
    eapply Hb; [reflexivity|]. left. reflexivity.
Defined.

End BuilderExamples.

(** ** Character tables *)

Section Characters.
Context {U : Unicode}.

Ltac char_props :=
  unfold isspace, isalnum_latin1, lower_char, in_range in *;
  repeat match goal with
         | H : _ = true |- _ =>
             rewrite ?orb_true_iff, ?andb_true_iff, ?N.leb_le, ?N.eqb_eq in H
         | H : _ = false |- _ =>
             rewrite ?orb_false_iff, ?andb_false_iff, ?N.leb_gt, ?N.eqb_neq in H
         end.

(** Below 256 the alphanumeric table is the tabulated one. *)
Lemma is_word_latin1 (c : char) :
  (c < 256)%N -> is_word c = isalnum_latin1 c || (c =? 95)%N.
Proof.
  intros H. unfold is_word, isalnum.
  now replace (c <? 256)%N with true by (symmetry; now apply N.ltb_lt).
Qed.

Lemma space_not_word (c : char) : isspace c = true -> is_word c = false.
Proof.
  intros H. destruct (c <? 256)%N eqn:E.
  - apply N.ltb_lt in E. rewrite (is_word_latin1 _ E).
    apply not_true_is_false. intros Hw. char_props. lia.
  - unfold is_word, isalnum. rewrite E, H. apply N.ltb_ge in E.
    apply N.eqb_neq. lia.
Qed.

Lemma word_not_space (c : char) : is_word c = true -> isspace c = false.
Proof.
  intros H. apply not_true_is_false. intros Hs.
  apply space_not_word in Hs. congruence.
Qed.

Lemma lower_char_space (c : char) : isspace c = true -> lower_char c = c.
Proof.
  intros H. unfold lower_char.
  replace (in_range 65 90 c || in_range 192 214 c || in_range 216 222 c)
    with false; [reflexivity|].
  symmetry. apply not_true_is_false. intros Hu. char_props. lia.
Qed.

Lemma lower_char_idem (c : char) : lower_char (lower_char c) = lower_char c.
Proof.
  unfold lower_char at 2 3.
  destruct (in_range 65 90 c || in_range 192 214 c || in_range 216 222 c) eqn:E;
    [|unfold lower_char; now rewrite E].
  unfold lower_char.
  replace (in_range 65 90 (c + 32) || in_range 192 214 (c + 32)
           || in_range 216 222 (c + 32)) with false; [reflexivity|].
  symmetry. apply not_true_is_false. intros H. char_props. lia.
Qed.

(** [lower_char] moves no code point across 256. *)
Lemma lower_char_bound (c : char) : (lower_char c <? 256)%N = (c <? 256)%N.
Proof.
  unfold lower_char.
  destruct (in_range 65 90 c || in_range 192 214 c || in_range 216 222 c) eqn:E;
    [|reflexivity].
  assert (c <= 222)%N by (char_props; lia).
  transitivity true; [|symmetry]; apply N.ltb_lt; lia.
Qed.

Lemma lower_char_above (c : char) : (c <? 256)%N = false -> lower_char c = c.
Proof.
  intros H. apply N.ltb_ge in H. unfold lower_char.
  replace (in_range 65 90 c || in_range 192 214 c || in_range 216 222 c)
    with false; [reflexivity|].
  symmetry. apply not_true_is_false. intros Hu. char_props. lia.
Qed.

Lemma lower_char_nonword (c : char) : is_word c = false -> lower_char c = c.
Proof.
  intros H. destruct (c <? 256)%N eqn:E; [|now apply lower_char_above].
  apply N.ltb_lt in E. rewrite (is_word_latin1 _ E) in H.
  unfold lower_char.
  replace (in_range 65 90 c || in_range 192 214 c || in_range 216 222 c)
    with false; [reflexivity|].
  symmetry. apply not_true_is_false. intros Hu. char_props. lia.
Qed.

Lemma is_word_lower_char (c : char) : is_word (lower_char c) = is_word c.
Proof.
  destruct (is_word c) eqn:Hw; [|now rewrite lower_char_nonword].
  destruct (c <? 256)%N eqn:E; [|now rewrite lower_char_above].
  pose proof (lower_char_bound c) as Hb. rewrite E in Hb.
  apply N.ltb_lt in E, Hb.
  rewrite (is_word_latin1 _ E) in Hw. rewrite (is_word_latin1 _ Hb).
  unfold lower_char in *.
  destruct (in_range 65 90 c || in_range 192 214 c || in_range 216 222 c)
    eqn:E'; [|exact Hw].
  apply not_false_is_true. intros Hn. char_props. lia.
Qed.

(** On a string of code points below 256, [lower] works character by
    character. *)
Lemma latin1_check (s : pystr) :
  forallb (fun c => (c <? 256)%N) s = true <-> latin1 s.
Proof.
  unfold latin1. rewrite forallb_forall, List.Forall_forall.
  split; intros H c Hc; apply N.ltb_lt; auto.
Qed.

Lemma lower_latin1 (s : pystr) : latin1 s -> lower s = List.map lower_char s.
Proof. intros H%latin1_check. unfold lower. now rewrite H. Qed.

Lemma lower_single (c : char) : (c < 256)%N -> lower [c] = [lower_char c].
Proof. intros H. apply lower_latin1. now repeat constructor. Qed.

End Characters.

(** The tables used for the concrete inputs lower every string
    character by character, and have the properties of [str.lower]
    that the statements about repeated normalisation use. *)
Section DemoTables.
#[local] Existing Instance Demo.tables.

Lemma demo_lower (s : pystr) : lower s = List.map lower_char s.
Proof. unfold lower. now destruct (forallb (fun c => (c <? 256)%N) s). Qed.

Lemma demo_lowered (c : char) : Words.lowered c <-> lower_char c = c.
Proof.
  unfold Words.lowered. rewrite demo_lower. cbn [List.map].
  split; [now intros [= ->]|now intros ->].
Qed.

Lemma demo_tables_laws : Words.LowerLaws.
Proof.
  split.
  - intros s. rewrite demo_lower. apply List.Forall_forall. intros c Hc.
    apply in_map_iff in Hc as (c0 & <- & _).
    apply demo_lowered, lower_char_idem.
  - intros t Ht. rewrite demo_lower.
    induction Ht as [|c t Hc _ IH]; [reflexivity|].
    apply demo_lowered in Hc. cbn [List.map]. now rewrite Hc, IH.
  - intros s. rewrite demo_lower.
    induction s as [|c s IH]; [reflexivity|].
    cbn [List.map existsb]. now rewrite is_word_lower_char, IH.
  - intros c Hc. now apply demo_lowered, lower_char_space.
Qed.

End DemoTables.

(** ** Words and the word-boundary substitution *)

Section Runs.
Import Words.
Context {U : Unicode}.

Lemma is_run_inv (w : pystr) :
  is_run w = true -> w <> [] /\ forallb is_word w = true.
Proof. destruct w; simpl; [discriminate|]. intros H. split; [discriminate|exact H]. Qed.

Lemma head_is_word_app (w r : pystr) :
  w <> [] -> forallb is_word w = true -> head_is_word (w ++ r) = true.
Proof.
  destruct w as [|c w]; [congruence|]. simpl.
  intros _ H. now apply andb_true_iff in H.
Qed.

(** Every text starts with a (possibly empty) run of word characters
    that ends at the end of the text or before a non-word character. *)
Lemma span_run (s : pystr) :
  exists w r, s = w ++ r /\ forallb is_word w = true /\ head_is_word r = false.
Proof.
  induction s as [|c s (w & r & -> & Hw & Hr)].
  - exists [], []. auto.
  - destruct (is_word c) eqn:Hc.
    + exists (c :: w), r. simpl. rewrite Hc, Hw. auto.
    + exists [], (c :: w ++ r). simpl. auto.
Qed.

(** Induction over a text, one non-word character or one maximal run
    of word characters at a time. *)
Lemma runs_ind (P : pystr -> Prop) :
  P [] ->
  (forall c r, is_word c = false -> P r -> P (c :: r)) ->
  (forall w r, is_run w = true -> head_is_word r = false -> P r -> P (w ++ r)) ->
  forall s, P s.
Proof.
  intros Hnil Hnon Hrun s.
  assert (H : forall n s, length s <= n -> P s).
  { clear s. induction n as [|n IH]; intros s Hlen.
    - destruct s; [exact Hnil|simpl in Hlen; lia].
    - destruct s as [|c s]; [exact Hnil|].
      simpl in Hlen.
      destruct (is_word c) eqn:Hc.
      + destruct (span_run s) as (w & r & -> & Hw & Hr).
        change (c :: w ++ r) with ((c :: w) ++ r).
        apply Hrun; [simpl; now rewrite Hc|exact Hr|].
        apply IH. rewrite length_app in Hlen. lia.
      + apply Hnon; [exact Hc|]. apply IH. lia. }
  apply (H (length s)). lia.
Qed.

Lemma word_runs_nonword (c : char) (r : pystr) :
  is_word c = false -> word_runs (c :: r) = word_runs r.
Proof. intros H. simpl. now rewrite H. Qed.

Lemma word_runs_word (c : char) (r : pystr) :
  is_word c = true ->
  word_runs (c :: r)
  = if head_is_word r
    then match word_runs r with
         | w :: ws => (c :: w) :: ws
         | [] => [[c]]
         end
    else [c] :: word_runs r.
Proof. intros H. simpl. now rewrite H. Qed.

Lemma word_runs_run (w r : pystr) :
  is_run w = true -> head_is_word r = false ->
  word_runs (w ++ r) = w :: word_runs r.
Proof.
  intros Hw Hr. apply is_run_inv in Hw as [Hne Hw].
  induction w as [|c w IH]; [congruence|].
  simpl in Hw. apply andb_true_iff in Hw as [Hc Hw].
  change ((c :: w) ++ r) with (c :: (w ++ r)).
  rewrite (word_runs_word _ _ Hc).
  destruct w as [|c' w].
  - cbn [app]. now rewrite Hr.
  - rewrite (head_is_word_app (c' :: w) r) by (auto; discriminate).
    rewrite IH by (auto; discriminate). reflexivity.
Qed.

Lemma word_runs_are_runs (s : pystr) : Forall (fun w => is_run w = true) (word_runs s).
Proof.
  induction s as [|c r Hc IH|w r Hw Hr IH] using runs_ind.
  - constructor.
  - now rewrite word_runs_nonword.
  - rewrite word_runs_run by assumption. now constructor.
Qed.

Lemma word_runs_chars (P : char -> Prop) (s : pystr) :
  Forall P s -> Forall (Forall P) (word_runs s).
Proof.
  induction s as [|c r Hc IH|w r Hw Hr IH] using runs_ind; intros H.
  - constructor.
  - rewrite word_runs_nonword by assumption. apply IH. now inversion H.
  - rewrite word_runs_run by assumption.
    apply Forall_app in H as [H1 H2]. constructor; auto.
Qed.

End Runs.

Section Substitution.
Import Words.
Context {U : Unicode}.

Variables (alts : list pystr) (repl : pystr).
Hypothesis row : row_ok alts repl = true.

Lemma row_alts : forall a, In a alts -> is_run a = true.
Proof.
  unfold row_ok in row. apply andb_true_iff in row as [H _].
  intros a Ha. rewrite forallb_forall in H. now apply H.
Qed.

Lemma row_repl : is_run repl = true.
Proof. unfold row_ok in row. now apply andb_true_iff in row as [_ H]. Qed.

Lemma mem_In (w : pystr) (l : list pystr) : mem w l = true <-> In w l.
Proof.
  unfold mem.
  destruct (List.in_dec (List.list_eq_dec N.eq_dec) w l); split; auto; discriminate.
Qed.

Lemma last_is_word_run (a : pystr) : is_run a = true -> last_is_word a = true.
Proof.
  intros H. apply is_run_inv in H as [Hne H].
  unfold last_is_word.
  destruct (rev a) as [|c t] eqn:E.
  - apply (f_equal (@rev _)) in E. rewrite rev_involutive in E. now subst.
  - rewrite forallb_forall in H. apply H.
    apply in_rev. rewrite E. now left.
Qed.

(** An alternative other than the run [w] either is no prefix of
    [w ++ r] or is followed by a word character. *)
Lemma strip_prefix_other (a w r : pystr) :
  forallb is_word a = true -> forallb is_word w = true ->
  head_is_word r = false -> a <> w ->
  match strip_prefix a (w ++ r) with
  | Some rest => head_is_word rest = true
  | None => True
  end.
Proof.
  revert w. induction a as [|x a IH]; intros w Ha Hw Hr Hne.
  - simpl. apply head_is_word_app; auto.
  - simpl in Ha. apply andb_true_iff in Ha as [Hx Ha].
    destruct w as [|y w].
    + simpl. destruct r as [|c r]; [exact I|].
      destruct (N.eqb_spec x c) as [->|_]; [|exact I].
      simpl in Hr. congruence.
    + simpl in Hw. apply andb_true_iff in Hw as [Hy Hw].
      simpl. destruct (N.eqb_spec x y) as [->|_]; [|exact I].
      apply IH; auto. congruence.
Qed.

Lemma find_match_run (l : list pystr) (w r : pystr) :
  (forall a, In a l -> is_run a = true) ->
  is_run w = true -> head_is_word r = false ->
  find_match l (w ++ r) = if mem w l then Some (length w) else None.
Proof.
  intros Hl Hw Hr. induction l as [|a l IH]; [reflexivity|].
  cbn [find_match].
  destruct (List.list_eq_dec N.eq_dec a w) as [->|Hne].
  - rewrite strip_prefix_app.
    rewrite (last_is_word_run _ Hw). unfold word_boundary. rewrite Hr.
    replace (mem w (w :: l)) with true; [reflexivity|].
    symmetry. apply mem_In. now left.
  - assert (Ha : is_run a = true) by (apply Hl; now left).
    pose proof (strip_prefix_other a w r) as Hp.
    pose proof (last_is_word_run _ Ha) as Hlast.
    apply is_run_inv in Ha as [_ Ha']. apply is_run_inv in Hw as [_ Hw'].
    specialize (Hp Ha' Hw' Hr Hne).
    rewrite IH by (intros; apply Hl; now right).
    assert (Hm : mem w (a :: l) = mem w l).
    { destruct (mem w l) eqn:E.
      - apply mem_In. right. now apply mem_In.
      - apply not_true_is_false. intros H. apply mem_In in H as [H|H];
          [congruence|]. apply mem_In in H. congruence. }
    rewrite Hm.
    destruct (strip_prefix a (w ++ r)) as [rest|]; [|reflexivity].
    unfold word_boundary. now rewrite Hp, Hlast.
Qed.

Lemma find_match_nonword (l : list pystr) (s : pystr) :
  (forall a, In a l -> is_run a = true) ->
  head_is_word s = false -> find_match l s = None.
Proof.
  intros Hl Hs. induction l as [|a l IH]; [reflexivity|].
  cbn [find_match]. rewrite IH by (intros; apply Hl; now right).
  assert (Ha : is_run a = true) by (apply Hl; now left).
  destruct a as [|x a]; [discriminate|].
  simpl in Ha. apply andb_true_iff in Ha as [Hx _].
  destruct s as [|c s]; [reflexivity|]. simpl.
  destruct (N.eqb_spec x c) as [->|_]; [|reflexivity].
  simpl in Hs. congruence.
Qed.

Lemma sub_scan_nonword (p : bool) (c : char) (r : pystr) :
  is_word c = false ->
  sub_scan alts repl p 0 (c :: r) = c :: sub_scan alts repl false 0 r.
Proof.
  intros Hc. cbn [sub_scan].
  rewrite (find_match_nonword alts (c :: r) row_alts) by exact Hc.
  rewrite Hc. now destruct (word_boundary p (c :: r)).
Qed.

Lemma sub_scan_prev (p : bool) (r : pystr) :
  head_is_word r = false ->
  sub_scan alts repl p 0 r = sub_scan alts repl false 0 r.
Proof.
  destruct r as [|c r]; [reflexivity|]. intros Hc.
  now rewrite !sub_scan_nonword.
Qed.

Lemma sub_scan_inside (u r : pystr) :
  forallb is_word u = true ->
  sub_scan alts repl true 0 (u ++ r) = u ++ sub_scan alts repl true 0 r.
Proof.
  induction u as [|c u IH]; [reflexivity|].
  intros H. simpl in H. apply andb_true_iff in H as [Hc Hu].
  cbn [app sub_scan]. unfold word_boundary. cbn [head_is_word].
  rewrite Hc. cbn [xorb]. now rewrite IH.
Qed.

Lemma sub_scan_skip (p : bool) (u r : pystr) :
  head_is_word r = false ->
  sub_scan alts repl p (length u) (u ++ r) = sub_scan alts repl false 0 r.
Proof.
  intros Hr. revert p. induction u as [|c u IH]; intros p.
  - now apply sub_scan_prev.
  - cbn [length app sub_scan]. apply IH.
Qed.

(** A maximal run of word characters is replaced when it is one of the
    alternatives and copied otherwise. *)
Lemma sub_scan_run (w r : pystr) :
  is_run w = true -> head_is_word r = false ->
  sub_scan alts repl false 0 (w ++ r)
  = fold_word alts repl w ++ sub_scan alts repl false 0 r.
Proof.
  intros Hw Hr.
  pose proof (find_match_run alts w r row_alts Hw Hr) as Hf.
  apply is_run_inv in Hw as [Hne Hw].
  destruct w as [|c w]; [congruence|].
  simpl in Hw. apply andb_true_iff in Hw as [Hc Hw].
  cbn [app sub_scan]. cbn [app] in Hf. rewrite Hf.
  unfold word_boundary. cbn [head_is_word]. rewrite Hc. cbn [xorb].
  unfold fold_word. destruct (mem (c :: w) alts).
  - cbn [length]. now rewrite sub_scan_skip.
  - rewrite sub_scan_inside by exact Hw.
    now rewrite (sub_scan_prev true r Hr).
Qed.

Lemma fold_word_run (w : pystr) :
  is_run w = true -> is_run (fold_word alts repl w) = true.
Proof.
  intros H. unfold fold_word. destruct (mem w alts); [apply row_repl|exact H].
Qed.

Lemma sub_scan_head (r : pystr) :
  head_is_word r = false -> head_is_word (sub_scan alts repl false 0 r) = false.
Proof.
  destruct r as [|c r]; [reflexivity|]. intros Hc.
  now rewrite sub_scan_nonword.
Qed.

(** The substitution maps the words of the text one by one. *)
Lemma word_runs_re_sub_words (s : pystr) :
  word_runs (re_sub_words alts repl s)
  = List.map (fold_word alts repl) (word_runs s).
Proof.
  unfold re_sub_words.
  induction s as [|c r Hc IH|w r Hw Hr IH] using runs_ind.
  - reflexivity.
  - rewrite sub_scan_nonword, !word_runs_nonword by assumption. exact IH.
  - rewrite sub_scan_run by assumption.
    rewrite !word_runs_run; auto using fold_word_run, sub_scan_head.
    cbn [List.map]. now rewrite IH.
Qed.

Lemma clean_re_sub_words (s : pystr) :
  clean s -> clean (re_sub_words alts repl s).
Proof.
  unfold re_sub_words, clean.
  induction s as [|c r Hc IH|w r Hw Hr IH] using runs_ind; intros H.
  - constructor.
  - rewrite sub_scan_nonword by assumption.
    inversion H; subst. constructor; auto.
  - rewrite sub_scan_run by assumption.
    apply Forall_app in H as [_ H2]. apply Forall_app. split; [|auto].
    pose proof (fold_word_run w Hw) as Hf.
    apply is_run_inv in Hf as [_ Hf]. rewrite forallb_forall in Hf.
    apply List.Forall_forall. intros x Hx. left. now apply Hf.
Qed.

End Substitution.

(** ** Whitespace: collapsing and stripping *)

Section Whitespace.
Import Words.
Context {U : Unicode}.

Lemma rstrip_nonspace (c : char) (s : pystr) :
  isspace c = false -> rstrip (c :: s) = c :: rstrip s.
Proof. intros H. simpl. rewrite H. now destruct (rstrip s). Qed.

Lemma rstrip_space (c : char) (s : pystr) :
  isspace c = true ->
  rstrip (c :: s) = match rstrip s with [] => [] | _ => c :: rstrip s end.
Proof. intros H. simpl. rewrite H. now destruct (rstrip s). Qed.

Lemma join_cons (w : pystr) (ws : list pystr) :
  join (w :: ws) = w ++ match ws with [] => [] | _ => 32%N :: join ws end.
Proof. destruct ws; simpl; [now rewrite app_nil_r|reflexivity]. Qed.

Lemma join_run_cons (w : pystr) (ws : list pystr) :
  is_run w = true -> exists c t, join (w :: ws) = c :: t /\ is_word c = true.
Proof.
  intros H. rewrite join_cons. destruct w as [|c w]; [discriminate|].
  simpl in H. apply andb_true_iff in H as [Hc _]. simpl. eauto.
Qed.

Lemma lstrip_join (ws : list pystr) :
  Forall (fun w => is_run w = true) ws -> lstrip (join ws) = join ws.
Proof.
  intros H. destruct ws as [|w ws]; [reflexivity|].
  inversion H; subst.
  destruct (join_run_cons w ws) as (c & t & -> & Hc); [assumption|].
  simpl. now rewrite (word_not_space _ Hc).
Qed.

(** On a text of word characters and whitespace, collapsing leaves the
    words, one blank between two of them, and at most one blank at
    either end. *)
Lemma rstrip_collapse_from (s : pystr) :
  clean s ->
  rstrip (collapse_from true s) = join (word_runs s)
  /\ rstrip (collapse_from false s)
     = if head_is_space s
       then match word_runs s with
            | [] => []
            | _ => 32%N :: join (word_runs s)
            end
       else join (word_runs s).
Proof.
  induction s as [|c r IH]; intros Hs; [split; reflexivity|].
  inversion Hs as [|? ? Hc Hr]; subst. destruct (IH Hr) as [IHt IHf].
  destruct (isspace c) eqn:Hsp.
  - pose proof (space_not_word _ Hsp) as Hw.
    rewrite word_runs_nonword by exact Hw.
    cbn [collapse_from head_is_space]. rewrite Hsp. split; [exact IHt|].
    rewrite rstrip_space by reflexivity. rewrite IHt.
    destruct (word_runs r) as [|w ws] eqn:E; [reflexivity|].
    pose proof (word_runs_are_runs r) as Hruns. rewrite E in Hruns.
    inversion Hruns; subst.
    destruct (join_run_cons w ws) as (c0 & t & -> & _); auto.
  - assert (Hw : is_word c = true) by (destruct Hc; congruence).
    cbn [collapse_from head_is_space]. rewrite Hsp.
    rewrite rstrip_nonspace by exact Hsp. rewrite IHf.
    rewrite (word_runs_word _ _ Hw).
    assert (Hgoal :
      c :: (if head_is_space r
            then match word_runs r with
                 | [] => []
                 | _ :: _ => 32%N :: join (word_runs r)
                 end
            else join (word_runs r))
      = join (if head_is_word r
              then match word_runs r with
                   | [] => [[c]]
                   | w :: ws => (c :: w) :: ws
                   end
              else [c] :: word_runs r)).
    { destruct r as [|c' r']; [reflexivity|].
      cbn [head_is_space head_is_word].
      destruct (isspace c') eqn:Hsp'.
      - rewrite (space_not_word _ Hsp'). rewrite join_cons.
        now destruct (word_runs (c' :: r')).
      - inversion Hr as [|? ? Hc' _]; subst.
        assert (Hw' : is_word c' = true) by (destruct Hc'; congruence).
        rewrite Hw'.
        destruct (word_runs (c' :: r')) as [|w ws]; [reflexivity|].
        now rewrite !join_cons. }
    split; exact Hgoal.
Qed.

Lemma strip_collapse_ws (s : pystr) :
  clean s -> strip (collapse_ws s) = join (word_runs s).
Proof.
  intros Hs. unfold strip, collapse_ws.
  destruct (rstrip_collapse_from s Hs) as [_ ->].
  pose proof (lstrip_join _ (word_runs_are_runs s)) as Hl.
  destruct (head_is_space s); [|exact Hl].
  destruct (word_runs s); [reflexivity|].
  cbn [lstrip]. change (isspace 32%N) with true. exact Hl.
Qed.

Lemma clean_remove_punct (s : pystr) : clean (remove_punct s).
Proof.
  unfold clean, remove_punct. apply List.Forall_forall. intros c Hc.
  apply filter_In in Hc as [_ Hc]. now apply orb_true_iff in Hc.
Qed.

Lemma lstrip_split (s : pystr) :
  exists pre, s = pre ++ lstrip s /\ Forall (fun c => isspace c = true) pre.
Proof.
  induction s as [|c s (pre & Hs & Hpre)]; [exists []; auto|].
  simpl. destruct (isspace c) eqn:Hc.
  - exists (c :: pre). simpl. split; [now f_equal|now constructor].
  - exists []. auto.
Qed.

Lemma rstrip_split (s : pystr) :
  exists post, s = rstrip s ++ post /\ Forall (fun c => isspace c = true) post.
Proof.
  induction s as [|c s (post & Hs & Hpost)]; [exists []; auto|].
  destruct (isspace c) eqn:Hc.
  - rewrite rstrip_space by exact Hc.
    destruct (rstrip s) as [|x t] eqn:E.
    + exists (c :: post). simpl in Hs. simpl. split; [now f_equal|now constructor].
    + exists post. split; [simpl; now f_equal|exact Hpost].
  - rewrite rstrip_nonspace by exact Hc.
    exists post. split; [simpl; now f_equal|exact Hpost].
Qed.

Lemma remove_punct_spaces (s : pystr) :
  Forall (fun c => isspace c = true) s -> remove_punct s = s.
Proof.
  induction 1 as [|c s Hc _ IH]; [reflexivity|].
  unfold remove_punct in *. simpl. rewrite Hc, orb_true_r. now f_equal.
Qed.

Lemma word_runs_spaces_l (pre s : pystr) :
  Forall (fun c => isspace c = true) pre -> word_runs (pre ++ s) = word_runs s.
Proof.
  induction 1 as [|c pre Hc _ IH]; [reflexivity|].
  cbn [app]. now rewrite word_runs_nonword by (now apply space_not_word).
Qed.

Lemma word_runs_spaces_r (s post : pystr) :
  Forall (fun c => isspace c = true) post -> word_runs (s ++ post) = word_runs s.
Proof.
  intros Hpost.
  assert (Hhead : head_is_word post = false).
  { destruct Hpost as [|c post Hc _]; [reflexivity|]. now apply space_not_word. }
  induction s as [|c r Hc IH|w r Hw Hr IH] using runs_ind.
  - pose proof (word_runs_spaces_l post [] Hpost) as H.
    now rewrite app_nil_r in H.
  - cbn [app]. now rewrite !word_runs_nonword.
  - assert (Hrp : head_is_word (r ++ post) = false)
      by (destruct r; [exact Hhead|exact Hr]).
    rewrite <- app_assoc.
    rewrite (word_runs_run w (r ++ post) Hw Hrp), (word_runs_run w r Hw Hr).
    now rewrite IH.
Qed.

(** Stripping before the punctuation is removed does not change the
    words. *)
Lemma word_runs_remove_punct_strip (s : pystr) :
  word_runs (remove_punct (strip s)) = word_runs (remove_punct s).
Proof.
  destruct (rstrip_split s) as (post & Hs & Hpost).
  destruct (lstrip_split (rstrip s)) as (pre & Hr & Hpre).
  fold (strip s) in Hr.
  rewrite Hs at 2. rewrite Hr. unfold remove_punct.
  rewrite !List.filter_app.
  fold (remove_punct pre) (remove_punct post) (remove_punct (strip s)).
  rewrite (remove_punct_spaces _ Hpre), (remove_punct_spaces _ Hpost).
  now rewrite word_runs_spaces_r, word_runs_spaces_l.
Qed.

End Whitespace.

(** ** Text normaliser *)

Section Normalizer.
Import Words.
Context {U : Unicode}.

(** The build-side normaliser, word by word. *)
Lemma build_normalize_words (s : pystr) :
  BuildVector.normalize_str s
  = join (List.map build_fold (word_runs (remove_punct (lower s)))).
Proof.
  cbv beta zeta delta [BuildVector.normalize_str].
  rewrite strip_collapse_ws
    by (do 5 (apply clean_re_sub_words; [reflexivity|]);
        apply clean_remove_punct).
  do 5 rewrite word_runs_re_sub_words by reflexivity.
  rewrite !List.map_map. unfold build_fold. reflexivity.
Qed.

(** The serve-side normaliser, word by word, once its result is
    stripped. *)
Lemma serve_normalize_words (s : pystr) :
  strip (App.normalize_str s)
  = join (List.map serve_fold (word_runs (remove_punct (lower s)))).
Proof.
  cbv beta zeta delta [App.normalize_str].
  rewrite strip_collapse_ws
    by (do 4 (apply clean_re_sub_words; [reflexivity|]);
        apply clean_remove_punct).
  do 4 rewrite word_runs_re_sub_words by reflexivity.
  rewrite !List.map_map, word_runs_remove_punct_strip.
  unfold serve_fold. reflexivity.
Qed.

Lemma fold_word_other (alts : list pystr) (repl w : pystr) :
  ~ In w alts -> fold_word alts repl w = w.
Proof.
  intros H. unfold fold_word.
  destruct (mem w alts) eqn:E; [|reflexivity].
  apply mem_In in E. contradiction.
Qed.

Lemma not_in_app_inv (w : pystr) (l1 l2 : list pystr) :
  ~ In w (l1 ++ l2) -> ~ In w l1 /\ ~ In w l2.
Proof. intros H. split; intros Hi; apply H, in_or_app; auto. Qed.

Lemma folds_outside_tables (w : pystr) :
  ~ In w table_words -> serve_fold w = w /\ build_fold w = w.
Proof.
  intros H. unfold table_words in H.
  repeat (apply not_in_app_inv in H as [? H]).
  unfold serve_fold, build_fold.
  change BuildVector.programs_alts with App.programs_alts.
  change BuildVector.admission_alts with App.admission_alts.
  repeat match goal with
         | Hw : ~ In w ?alts |- context [fold_word ?alts ?r w] =>
             rewrite (fold_word_other alts r w Hw)
         end.
  split; reflexivity.
Qed.

Ltac each_table_word H :=
  unfold table_words in H; cbn in H;
  repeat (destruct H as [<-|H]; [|]); [..|destruct H].

Lemma folds_agree (w : pystr) :
  ~ In w differing_words -> build_fold w = serve_fold w.
Proof.
  intros Hd.
  assert (Hm : mem w differing_words = false).
  { apply not_true_is_false. intros H. now apply mem_In in H. }
  destruct (List.in_dec (List.list_eq_dec N.eq_dec) w table_words) as [H|H].
  - each_table_word H;
      first [ vm_compute; reflexivity | vm_compute in Hm; discriminate Hm ].
  - destruct (folds_outside_tables w H) as [-> ->]. reflexivity.
Qed.

Lemma build_fold_idem (w : pystr) : build_fold (build_fold w) = build_fold w.
Proof.
  destruct (List.in_dec (List.list_eq_dec N.eq_dec) w table_words) as [H|H].
  - each_table_word H; vm_compute; reflexivity.
  - destruct (folds_outside_tables w H) as [_ Hb]. now rewrite !Hb.
Qed.

Lemma serve_fold_idem (w : pystr) : serve_fold (serve_fold w) = serve_fold w.
Proof.
  destruct (List.in_dec (List.list_eq_dec N.eq_dec) w table_words) as [H|H].
  - each_table_word H; vm_compute; reflexivity.
  - destruct (folds_outside_tables w H) as [Hs _]. now rewrite !Hs.
Qed.

End Normalizer.

(** ** Texts below 256 and the tables beyond

    The statements at concrete inputs are run with [Demo.tables]; their
    inputs have code points below 256 only, and on such a text the
    result of either normaliser is the same for every [Unicode]
    structure. *)

Section TablesBelow256.
Import Words.
Variables U1 U2 : Unicode.

Lemma latin1_app (s t : pystr) : latin1 (s ++ t) <-> latin1 s /\ latin1 t.
Proof. apply Forall_app. Qed.

Lemma is_word_tables (c : char) :
  (c < 256)%N -> @is_word U1 c = @is_word U2 c.
Proof. intros H. now rewrite !is_word_latin1. Qed.

Lemma head_is_word_tables (s : pystr) :
  latin1 s -> @head_is_word U1 s = @head_is_word U2 s.
Proof.
  destruct 1 as [|c s Hc _]; [reflexivity|]. now apply is_word_tables.
Qed.

Lemma last_is_word_tables (s : pystr) :
  latin1 s -> @last_is_word U1 s = @last_is_word U2 s.
Proof.
  intros H. unfold last_is_word.
  pose proof (in_rev s) as Hin.
  destruct (List.rev s) as [|c t]; [reflexivity|].
  apply is_word_tables. unfold latin1 in H. rewrite List.Forall_forall in H.
  apply H, Hin. now left.
Qed.

Lemma strip_prefix_latin1 (a s rest : pystr) :
  strip_prefix a s = Some rest -> latin1 s -> latin1 rest.
Proof.
  revert s. induction a as [|x a IH]; intros s.
  - now intros [= ->].
  - destruct s as [|y s]; [discriminate|]. simpl.
    destruct (x =? y)%N; [|discriminate].
    intros H Hs. apply (IH s H). now inversion Hs.
Qed.

Lemma find_match_tables (alts : list pystr) (s : pystr) :
  Forall latin1 alts -> latin1 s ->
  @find_match U1 alts s = @find_match U2 alts s.
Proof.
  intros Ha Hs. induction Ha as [|a alts Hl _ IH]; [reflexivity|].
  cbn [find_match]. rewrite IH.
  destruct (strip_prefix a s) as [rest|] eqn:E; [|reflexivity].
  unfold word_boundary.
  rewrite (last_is_word_tables a Hl).
  now rewrite (head_is_word_tables rest (strip_prefix_latin1 _ _ _ E Hs)).
Qed.

Lemma sub_scan_tables (alts : list pystr) (repl : pystr) (text : pystr) :
  Forall latin1 alts -> latin1 repl -> latin1 text ->
  forall prev skip,
    @sub_scan U1 alts repl prev skip text = @sub_scan U2 alts repl prev skip text
    /\ latin1 (@sub_scan U1 alts repl prev skip text).
Proof.
  intros Ha Hr Ht. induction Ht as [|c r Hc Hr' IH]; intros prev skip.
  - split; [reflexivity|constructor].
  - assert (Hcr : latin1 (c :: r)) by now constructor.
    cbn [sub_scan]. unfold word_boundary.
    rewrite (head_is_word_tables (c :: r) Hcr), (find_match_tables alts (c :: r) Ha Hcr).
    rewrite (is_word_tables c Hc).
    destruct skip as [|k]; [|apply IH].
    destruct (xorb prev (@head_is_word U2 (c :: r))).
    + destruct (@find_match U2 alts (c :: r)) as [[|k]|].
      * destruct (IH (@is_word U2 c) 0) as [-> H]. split; [reflexivity|now constructor].
      * destruct (IH (@is_word U2 c) k) as [-> H]. split; [reflexivity|].
        now apply latin1_app.
      * destruct (IH (@is_word U2 c) 0) as [-> H]. split; [reflexivity|now constructor].
    + destruct (IH (@is_word U2 c) 0) as [-> H]. split; [reflexivity|now constructor].
Qed.

Lemma re_sub_words_tables (alts : list pystr) (repl : pystr) (t1 t2 : pystr) :
  forallb (forallb (fun c => (c <? 256)%N)) alts = true ->
  forallb (fun c => (c <? 256)%N) repl = true ->
  t1 = t2 /\ latin1 t1 ->
  @re_sub_words U1 alts repl t1 = @re_sub_words U2 alts repl t2
  /\ latin1 (@re_sub_words U1 alts repl t1).
Proof.
  intros Ha Hr [<- Ht]. apply sub_scan_tables.
  - rewrite forallb_forall in Ha. apply List.Forall_forall.
    intros a Hin. now apply latin1_check, Ha.
  - now apply latin1_check.
  - exact Ht.
Qed.

Lemma lower_tables (s : pystr) :
  latin1 s -> @lower U1 s = @lower U2 s /\ latin1 (@lower U1 s).
Proof.
  intros H. rewrite !lower_latin1 by exact H. split; [reflexivity|].
  unfold latin1 in *. rewrite List.Forall_forall in *. intros c Hc.
  apply in_map_iff in Hc as (c0 & <- & Hc0).
  apply N.ltb_lt. rewrite lower_char_bound. now apply N.ltb_lt, H.
Qed.

Lemma remove_punct_tables (t1 t2 : pystr) :
  t1 = t2 /\ latin1 t1 ->
  @remove_punct U1 t1 = @remove_punct U2 t2 /\ latin1 (@remove_punct U1 t1).
Proof.
  intros [<- H]. unfold remove_punct. split.
  - apply filter_ext_in. intros c Hc.
    unfold latin1 in H. rewrite List.Forall_forall in H.
    now rewrite (is_word_tables c (H c Hc)).
  - unfold latin1 in *. rewrite List.Forall_forall in *. intros c Hc.
    apply filter_In in Hc as [Hc _]. now apply H.
Qed.

Lemma strip_latin1 (s : pystr) : latin1 s -> latin1 (strip s).
Proof.
  intros H.
  destruct (rstrip_split s) as (post & Hs & _).
  destruct (lstrip_split (rstrip s)) as (pre & Hr & _).
  fold (strip s) in Hr. rewrite Hs, Hr in H.
  now apply latin1_app in H as [[_ H]%latin1_app _].
Qed.

(** On a text of code points below 256 the two normalisers do not look
    at the tables beyond. *)
Lemma normalize_str_tables (s : pystr) :
  latin1 s ->
  @App.normalize_str U1 s = @App.normalize_str U2 s
  /\ @BuildVector.normalize_str U1 s = @BuildVector.normalize_str U2 s.
Proof.
  intros H. destruct (lower_tables s H) as [El Hl].
  split.
  - cbv beta zeta delta [App.normalize_str]. f_equal.
    do 4 (apply re_sub_words_tables; [reflexivity|reflexivity|]).
    apply remove_punct_tables. rewrite <- El. split; [reflexivity|].
    now apply strip_latin1.
  - cbv beta zeta delta [BuildVector.normalize_str]. do 2 f_equal.
    do 5 (apply re_sub_words_tables; [reflexivity|reflexivity|]).
    apply remove_punct_tables. now rewrite <- El.
Qed.

End TablesBelow256.

Section NormalizerClaims.
Import Words.
Context {U : Unicode} {L : Words.LowerLaws}.

Lemma remove_punct_clean (s : pystr) : clean s -> remove_punct s = s.
Proof.
  induction 1 as [|c s Hc _ IH]; [reflexivity|].
  unfold remove_punct in *. simpl.
  replace (is_word c || isspace c) with true
    by (symmetry; now apply orb_true_iff).
  now rewrite IH.
Qed.

Lemma word_runs_join (ws : list pystr) :
  Forall (fun w => is_run w = true) ws -> word_runs (join ws) = ws.
Proof.
  induction 1 as [|w ws Hw _ IH]; [reflexivity|].
  rewrite join_cons. destruct ws as [|w' ws].
  - now rewrite word_runs_run.
  - rewrite word_runs_run by (auto; reflexivity).
    now rewrite word_runs_nonword, IH by reflexivity.
Qed.

Lemma settled_join (ws : list pystr) :
  Forall settled ws ->
  Forall lowered (join ws) /\ clean (join ws).
Proof.
  induction 1 as [|w ws [Hr Hl] _ [IHl IHc]]; [split; constructor|].
  rewrite join_cons.
  assert (Hw : clean w).
  { apply is_run_inv in Hr as [_ Hr]. rewrite forallb_forall in Hr.
    apply List.Forall_forall. intros c Hc. left. now apply Hr. }
  destruct ws as [|w' ws].
  - rewrite app_nil_r. split; assumption.
  - split; apply Forall_app; split; try assumption; constructor;
      try assumption; [reflexivity|right; reflexivity].
Qed.

Lemma settled_fold_word (alts : list pystr) (repl w : pystr) :
  settled repl -> settled w -> settled (fold_word alts repl w).
Proof. intros Hr Hw. unfold fold_word. now destruct (mem w alts). Qed.

Lemma settled_literal (w : pystr) :
  is_run w = true ->
  forallb (fun c => (c <? 256)%N && (lower_char c =? c)%N) w = true ->
  settled w.
Proof.
  intros Hr Hl. split; [exact Hr|].
  rewrite forallb_forall in Hl. apply List.Forall_forall.
  intros c Hc. apply Hl, andb_true_iff in Hc as [Hc He].
  apply N.ltb_lt in Hc. apply N.eqb_eq in He.
  unfold lowered. now rewrite lower_single, He.
Qed.

Lemma settled_build_fold (w : pystr) : settled w -> settled (build_fold w).
Proof.
  intros Hw. unfold build_fold.
  repeat (apply settled_fold_word; [apply settled_literal; reflexivity|]).
  exact Hw.
Qed.

Lemma settled_words (s : pystr) :
  Forall settled (word_runs (remove_punct (lower s))).
Proof.
  assert (Hl : Forall lowered (remove_punct (lower s))).
  { pose proof (lower_lowered s) as H. rewrite List.Forall_forall in H.
    apply List.Forall_forall. intros c Hc.
    apply filter_In in Hc as [Hc _]. now apply H. }
  apply word_runs_chars in Hl.
  pose proof (word_runs_are_runs (remove_punct (lower s))) as Hr.
  revert Hl Hr. generalize (word_runs (remove_punct (lower s))).
  induction l as [|w ws IH]; intros Hl Hr; [constructor|].
  inversion Hl; inversion Hr; subst. constructor; [split|]; auto.
Qed.

Lemma settled_serve_fold (w : pystr) : settled w -> settled (serve_fold w).
Proof.
  intros Hw. unfold serve_fold.
  repeat (apply settled_fold_word; [apply settled_literal; reflexivity|]).
  exact Hw.
Qed.

Lemma settled_map (f : pystr -> pystr) (ws : list pystr) :
  (forall w, settled w -> settled (f w)) ->
  Forall settled ws -> Forall settled (List.map f ws).
Proof. intros Hf. induction 1; constructor; auto. Qed.

Lemma lowered_spaces (s : pystr) :
  Forall (fun c => isspace c = true) s -> Forall lowered s.
Proof.
  intros H. eapply List.Forall_impl; [|exact H].
  intros c Hc. now apply space_lowered.
Qed.

(** [X13] A second pass of the serve-side normaliser changes nothing
    but the blanks at the two ends, on every string.  ([str.lower] is
    used through the properties listed in [LowerLaws].) *)
Theorem serve_normalize_idempotent_up_to_strip (s : pystr) :
  strip (App.normalize_str (App.normalize_str s)) = strip (App.normalize_str s).
Proof.
  destruct (rstrip_split (App.normalize_str s)) as (post & Hs & Hpost).
  destruct (lstrip_split (rstrip (App.normalize_str s))) as (pre & Hr & Hpre).
  fold (strip (App.normalize_str s)) in Hr.
  rewrite Hr in Hs. clear Hr.
  rewrite (serve_normalize_words (App.normalize_str s)).
  rewrite (serve_normalize_words s) in *.
  set (ws := List.map serve_fold (word_runs (remove_punct (lower s)))) in *.
  assert (Hws : Forall settled ws)
    by (apply settled_map; [apply settled_serve_fold|apply settled_words]).
  destruct (settled_join ws Hws) as [Hl Hc].
  rewrite Hs.
  rewrite (lowered_fixed ((pre ++ join ws) ++ post))
    by (repeat (apply Forall_app; split); auto using lowered_spaces).
  unfold remove_punct. rewrite !List.filter_app.
  fold (remove_punct pre) (remove_punct post) (remove_punct (join ws)).
  rewrite (remove_punct_spaces _ Hpre), (remove_punct_spaces _ Hpost),
    (remove_punct_clean _ Hc).
  rewrite word_runs_spaces_r, word_runs_spaces_l by assumption.
  rewrite word_runs_join
    by (eapply List.Forall_impl; [|exact Hws]; now intros w [Hw _]).
  f_equal. unfold ws. rewrite List.map_map.
  apply map_ext. intros w. apply serve_fold_idem.
Qed.

(** [X12] The build-side normaliser is idempotent, on every string.
    ([str.lower] is used through the properties listed in
    [LowerLaws].) *)
Theorem build_normalize_idempotent (s : pystr) :
  BuildVector.normalize_str (BuildVector.normalize_str s)
  = BuildVector.normalize_str s.
Proof.
  rewrite (build_normalize_words s).
  set (ws := List.map build_fold (word_runs (remove_punct (lower s)))).
  assert (Hws : Forall settled ws)
    by (apply settled_map; [apply settled_build_fold|apply settled_words]).
  rewrite build_normalize_words.
  destruct (settled_join ws Hws) as [Hl Hc].
  rewrite (lowered_fixed _ Hl), (remove_punct_clean _ Hc).
  rewrite word_runs_join
    by (eapply List.Forall_impl; [|exact Hws]; now intros w [Hr _]).
  f_equal. unfold ws. rewrite List.map_map.
  apply map_ext. intros w. apply build_fold_idem.
Qed.

(** [C4] The serve-side normaliser is not idempotent: it strips before
    it removes punctuation, so a blank that ends up at the edge stays
    in the first result and is removed by the second pass. *)
Theorem serve_normalize_not_idempotent :
  App.normalize_str (str "hello !") = str "greeting "
  /\ App.normalize_str (App.normalize_str (str "hello !")) = str "greeting"
  /\ App.normalize_str (App.normalize_str (str "hello !"))
     <> App.normalize_str (str "hello !").
Proof.
  split; [vm_compute; reflexivity|].
  split; [vm_compute; reflexivity|].
  vm_compute. discriminate.
Qed.

Lemma build_fold_run (w : pystr) : is_run w = true -> is_run (build_fold w) = true.
Proof.
  intros H. unfold build_fold.
  do 5 (apply fold_word_run; [reflexivity|]). exact H.
Qed.

Lemma serve_fold_run (w : pystr) : is_run w = true -> is_run (serve_fold w) = true.
Proof.
  intros H. unfold serve_fold.
  do 4 (apply fold_word_run; [reflexivity|]). exact H.
Qed.

(** Each of the differing words is folded differently by the two
    tables. *)
Lemma folds_differ (w : pystr) :
  In w differing_words -> build_fold w <> serve_fold w.
Proof.
  intros H. cbn in H.
  repeat (destruct H as [<-|H]; [vm_compute; discriminate|]). destruct H.
Qed.

Lemma map_runs (f : pystr -> pystr) (ws : list pystr) :
  (forall w, is_run w = true -> is_run (f w) = true) ->
  Forall (fun w => is_run w = true) ws ->
  Forall (fun w => is_run w = true) (List.map f ws).
Proof. intros Hf. induction 1; constructor; auto. Qed.

Lemma join_runs_inj (ws1 ws2 : list pystr) :
  Forall (fun w => is_run w = true) ws1 ->
  Forall (fun w => is_run w = true) ws2 ->
  join ws1 = join ws2 -> ws1 = ws2.
Proof.
  intros H1 H2 Hj.
  rewrite <- (word_runs_join ws1 H1), <- (word_runs_join ws2 H2).
  now rewrite Hj.
Qed.

Lemma map_eq_pointwise {A B} (f g : A -> B) (l : list A) :
  List.map f l = List.map g l -> forall x, In x l -> f x = g x.
Proof.
  induction l as [|a l IH]; [intros _ x []|].
  cbn [List.map]. intros [= Ha Hl] x [<-|Hx]; auto.
Qed.

(** [C8], amended.  The build-side table is not the serve-side table
    plus two rows: it has the programs row and the admission row in
    common with it, has no greeting row, folds hostel, dorm and
    accommodation (not stay) to hostel, and adds the placement and the
    contact row.  Call words of a string the maximal runs of word
    characters (letters, digits, underscore) of its lower-cased form
    with the punctuation deleted (the words of "E-mail?" are the one
    word "email").  For every input string, the build-side result is
    the serve-side result with the whitespace at its two ends removed
    exactly when none of the words of the string is one of hi, hello,
    hey, hlw, hii, greetings, stay, accommodation, jobs, job,
    recruitment, phone, email, address. *)
Theorem normalizers_agree_off_differing_words (s : pystr) :
  BuildVector.normalize_str s = strip (App.normalize_str s)
  <-> Forall (fun w => ~ In w differing_words) (word_runs (remove_punct (lower s))).
Proof.
  rewrite build_normalize_words, serve_normalize_words.
  pose proof (word_runs_are_runs (remove_punct (lower s))) as Hruns.
  split.
  - intros Hj. apply join_runs_inj in Hj;
      [|apply map_runs; [apply build_fold_run|exact Hruns]
       |apply map_runs; [apply serve_fold_run|exact Hruns] ].
    apply List.Forall_forall. intros w Hw Hd.
    apply (folds_differ w Hd). now apply (map_eq_pointwise _ _ _ Hj).
  - intros H. f_equal. apply map_ext_in. intros w Hw.
    apply folds_agree. rewrite List.Forall_forall in H. now apply H.
Qed.

(** [C9] Neither normaliser fails: the build-side one returns a string
    for every value, the empty string when the value is not a string,
    and the serve-side one returns a string for every string. *)
Theorem normalize_never_fails :
  (forall v : pyval, exists r, BuildVector.normalize_text v = Ok r)
  /\ (forall v : pyval, (forall s, v <> PyStr s) ->
                        BuildVector.normalize_text v = Ok [])
  /\ (forall s : pystr, exists r, App.normalize_text (PyStr s) = Ok r).
Proof.
  split; [|split].
  - intros [| s | | z]; simpl; eauto.
  - intros [| s | | z] H; try reflexivity. now destruct (H s).
  - intros s. simpl. eauto.
Qed.

(** The serve-side normaliser has no type test: a value that is not a
    string makes it raise. *)
Lemma serve_normalize_text_non_string (v : pyval) :
  (forall s, v <> PyStr s) -> App.normalize_text v = Raise AttributeError.
Proof.
  intros H. destruct v as [| s | | z]; try reflexivity. now destruct (H s).
Qed.

End NormalizerClaims.

(** ** Text normaliser: the statements at concrete inputs *)

Section NormalizerClaimsExamples.
Import Words.
#[local] Existing Instance Demo.tables.

(** [C8], as stated, fails: on "hello" and on "stay" neither extra
    row applies, and the two normalisers disagree. *)
Lemma normalizers_disagree_off_extra_rows :
  mem (str "hello") (BuildVector.placement_alts ++ BuildVector.contact_alts) = false
  /\ App.normalize_str (str "hello") = str "greeting"
  /\ BuildVector.normalize_str (str "hello") = str "hello"
  /\ mem (str "stay") (BuildVector.placement_alts ++ BuildVector.contact_alts) = false
  /\ App.normalize_str (str "stay") = str "hostel"
  /\ BuildVector.normalize_str (str "stay") = str "stay"
  /\ App.normalize_str (str "hello") <> BuildVector.normalize_str (str "hello").
Proof.
  repeat (split; [vm_compute; reflexivity|]).
  vm_compute. discriminate.
Qed.

Lemma normalizers_agree_off_differing_words_witness :
  BuildVector.normalize_str (str "  Which Courses can I apply for?! ")
  = strip (App.normalize_str (str "  Which Courses can I apply for?! ")).
Proof.
  apply normalizers_agree_off_differing_words.
  apply List.Forall_forall. intros w Hw.
  vm_compute in Hw.
  repeat (destruct Hw as [<-|Hw]; [vm_compute; intuition discriminate|]).
  destruct Hw.
Defined.

Lemma normalize_never_fails_witness :
  BuildVector.normalize_text PyNaN = Ok []
  /\ BuildVector.normalize_text (PyInt 42) = Ok [].
Proof.
  destruct normalize_never_fails as (_ & H & _).
  split; apply H; discriminate.
Defined.

End NormalizerClaimsExamples.

(** ** Retriever: calls, provenance and positions *)

Section RetrieverExtras.
Import App Retrieval.
Context {U : Unicode}.

Lemma getitem_In {A} (l : list A) (i : Z) (x : A) : getitem l i = Ok x -> In x l.
Proof.
  unfold getitem.
  destruct ((0 <=? _)%Z && _); [|discriminate].
  destruct (nth_error l _) eqn:E; [|discriminate].
  intros [= <-]. eapply nth_error_In, E.
Qed.

Lemma getitem_front {A} (l : list A) (i : Z) :
  (0 <= i < Z.of_nat (length l))%Z ->
  getitem l i = match nth_error l (Z.to_nat i) with
                | Some x => Ok x
                | None => Raise IndexError
                end.
Proof.
  intros H. unfold getitem.
  replace (i <? 0)%Z with false by (symmetry; apply Z.ltb_ge; lia).
  replace ((0 <=? i)%Z && (i <? Z.of_nat (length l))%Z) with true; [reflexivity|].
  symmetry. apply andb_true_iff. split; [apply Z.leb_le|apply Z.ltb_lt]; lia.
Qed.

Lemma getitem_back {A} (l : list A) (i : Z) :
  (- Z.of_nat (length l) <= i < 0)%Z ->
  getitem l i = match nth_error l (Z.to_nat (i + Z.of_nat (length l))) with
                | Some x => Ok x
                | None => Raise IndexError
                end.
Proof.
  intros H. unfold getitem.
  replace (i <? 0)%Z with true by (symmetry; apply Z.ltb_lt; lia).
  replace ((0 <=? i + Z.of_nat (length l))%Z
           && (i + Z.of_nat (length l) <? Z.of_nat (length l))%Z) with true;
    [reflexivity|].
  symmetry. apply andb_true_iff. split; [apply Z.leb_le|apply Z.ltb_lt]; lia.
Qed.

Lemma getitem_outside {A} (l : list A) (i : Z) :
  (i < - Z.of_nat (length l) \/ Z.of_nat (length l) <= i)%Z ->
  getitem l i = Raise IndexError.
Proof.
  intros H. unfold getitem.
  destruct (i <? 0)%Z eqn:E.
  - apply Z.ltb_lt in E.
    replace ((0 <=? i + Z.of_nat (length l))%Z) with false; [reflexivity|].
    symmetry. apply Z.leb_gt. lia.
  - apply Z.ltb_ge in E.
    replace ((i <? Z.of_nat (length l))%Z) with false;
      [now rewrite andb_false_r|].
    symmetry. apply Z.ltb_ge. lia.
Qed.

(** How the guarded search can end. *)
Lemma vector_search_cases norm resources e ix :
  (exists ex, vector_search norm resources e ix = (Raise ex, [CallEncode [norm]]))
  \/ (exists x r, vector_search norm resources e ix
                  = (r, [CallEncode [norm]; CallSearch x 1])
                  /\ match r with
                     | Ok (Some a) =>
                         exists answers,
                           data_getitem (data resources) "answers" = Ok answers
                           /\ In a answers
                     | _ => True
                     end).
Proof.
  unfold vector_search, outside, lift, bind, ret.
  destruct (encode e [norm]) as [x|ex]; [right; exists x|left; eauto].
  destruct (search ix x 1) as [[D II]|ex];
    [|eexists; split; [reflexivity|exact I] ].
  destruct (getitem D 0) as [D0|ex];
    [|eexists; split; [reflexivity|exact I] ].
  destruct (getitem D0 0) as [d|ex];
    [|eexists; split; [reflexivity|exact I] ].
  destruct (lt_number d threshold);
    [|eexists; split; [reflexivity|exact I] ].
  destruct (data_getitem (data resources) "answers") as [answers|ex] eqn:Ha;
    [|eexists; split; [reflexivity|exact I] ].
  destruct (getitem II 0) as [I0|ex];
    [|eexists; split; [reflexivity|exact I] ].
  destruct (getitem I0 0) as [i|ex];
    [|eexists; split; [reflexivity|exact I] ].
  destruct (getitem answers i) as [a|ex] eqn:Hi;
    [|eexists; split; [reflexivity|exact I] ].
  eexists. split; [reflexivity|]. exists answers. split; [reflexivity|].
  eapply getitem_In, Hi.
Qed.

(** How a reply comes about, with the calls made for it. *)
Lemma get_knowledge_response_cases (query : pystr) (resources : Resources) :
  let norm := normalize_str query in
  exists r l,
    get_knowledge_response query resources = (Ok r, l)
    /\ (l = [] \/ l = [CallEncode [norm]]
        \/ exists x, l = [CallEncode [norm]; CallSearch x 1])
    /\ (r = PyNone \/ r = PyStr GREETING_REPLY
        \/ exists answers,
             data_getitem (data resources) "answers" = Ok answers
             /\ In r answers).
Proof.
  intros norm. unfold get_knowledge_response.
  destruct (falsy_data (data resources)); [cbn; eauto 10|].
  cbn [normalize_text lift bind app]. fold norm.
  destruct (contains (str "greeting") norm); [cbn; eauto 10|].
  destruct (embedder resources) as [e|]; [|cbn; eauto 10].
  destruct (index resources) as [ix|]; [|cbn; eauto 10].
  destruct (vector_search_cases norm resources e ix)
    as [[ex ->]|(x & r & -> & Hr)].
  - cbn. eauto 10.
  - destruct r as [[a|]|ex]; cbn; eauto 10.
Qed.

(** [X1] A query makes at most two outside calls: one embedding of the
    normalised query alone and then at most one search for a single
    neighbour; the hosted model is never called from here. *)
Theorem retrieve_calls_encode_then_search (query : pystr) (resources : Resources) :
  let l := calls (get_knowledge_response query resources) in
  (l = [] \/ l = [CallEncode [normalize_str query]]
   \/ exists x, l = [CallEncode [normalize_str query]; CallSearch x 1])
  /\ forallb (fun c => negb (Turns.is_generate c)) l = true.
Proof.
  destruct (get_knowledge_response_cases query resources) as (r & l & -> & Hl & _).
  cbn. split; [exact Hl|].
  destruct Hl as [->|[->|[x ->]]]; reflexivity.
Qed.

(** [X2] A reply is never made up: it is no-match, the fixed greeting
    text, or one of the entries of the stored answer list. *)
Theorem retrieve_reply_provenance (query : pystr) (resources : Resources) :
  exists r,
    result (get_knowledge_response query resources) = Ok r
    /\ (r = PyNone \/ r = PyStr GREETING_REPLY
        \/ exists answers,
             data_getitem (data resources) "answers" = Ok answers
             /\ In r answers).
Proof.
  destruct (get_knowledge_response_cases query resources) as (r & l & -> & _ & Hr).
  exists r. split; [reflexivity|exact Hr].
Qed.

Lemma data_getitem_store (resources : Resources) (key : string) answers :
  data_getitem (data resources) key = Ok answers ->
  falsy_data (data resources) = false.
Proof.
  unfold data_getitem, falsy_data.
  destruct (data resources) as [m|]; [|discriminate].
  intros H. apply bool_decide_eq_false. intros ->.
  rewrite lookup_empty in H. discriminate.
Qed.

(** The reply of a search that returned a near neighbour. *)
Lemma get_knowledge_response_near (query : pystr) (resources : Resources)
    dist pos answers :
  contains (str "greeting") (normalize_str query) = false ->
  search_returns resources (normalize_str query) dist pos ->
  (dist < threshold)%Q ->
  data_getitem (data resources) "answers" = Ok answers ->
  result (get_knowledge_response query resources)
  = match getitem answers pos with
    | Ok a => Ok a
    | Raise _ => Ok PyNone
    end.
Proof.
  intros Hg (e & ix & x & D & II & D0 & I0 & He & Hix & Henc & Hs
             & HD & HD0 & HI & HI0) Hlt Hans.
  assert (Hr : reaches_search query resources)
    by (split; [eapply data_getitem_store, Hans|exact Hg]).
  destruct (getitem answers pos) as [a|ex] eqn:Ha.
  - rewrite (get_knowledge_response_searched _ _ Hr), He, Hix.
    rewrite (try_except_ok _ _ _ _
               (vector_search_accept _ _ _ _ _ _ _ _ _ _ _ _ _
                  Henc Hs HD HD0 HI HI0 Hlt Hans Ha)).
    reflexivity.
  - destruct (vector_search_no_answer (normalize_str query) resources
                e ix x D II D0 I0 dist pos Henc Hs HD HD0 HI HI0 Hlt)
      as (ex' & l & Hv); [right; eauto|].
    now rewrite (no_match_of_raise _ _ _ _ _ _ Hr He Hix Hv).
Qed.

(** [X3] The returned position indexes the answer list the way Python
    does: a position from 0 to n-1 selects that answer, a position from
    -n to -1 counts from the end of the list, and any other position
    gives no-match. *)
Theorem retrieve_position_bounds (query : pystr) (resources : Resources)
    (dist : Q) (pos : Z) (answers : list pyval) :
  contains (str "greeting") (normalize_str query) = false ->
  search_returns resources (normalize_str query) dist pos ->
  (dist < threshold)%Q ->
  data_getitem (data resources) "answers" = Ok answers ->
  let n := Z.of_nat (length answers) in
  ((0 <= pos < n)%Z ->
   exists a, nth_error answers (Z.to_nat pos) = Some a
             /\ result (get_knowledge_response query resources) = Ok a)
  /\ ((- n <= pos < 0)%Z ->
      exists a, nth_error answers (Z.to_nat (pos + n)) = Some a
                /\ result (get_knowledge_response query resources) = Ok a)
  /\ ((pos < - n \/ n <= pos)%Z ->
      result (get_knowledge_response query resources) = Ok PyNone).
Proof.
  intros Hg Hs Hlt Hans n.
  rewrite (get_knowledge_response_near _ _ _ _ _ Hg Hs Hlt Hans).
  split; [|split]; intros Hpos.
  - rewrite getitem_front by exact Hpos.
    destruct (nth_error answers (Z.to_nat pos)) as [a|] eqn:E;
      [exists a; split; reflexivity |].
    apply nth_error_None in E. lia.
  - rewrite getitem_back by exact Hpos. fold n.
    destruct (nth_error answers (Z.to_nat (pos + n))) as [a|] eqn:E;
      [exists a; split; reflexivity |].
    apply nth_error_None in E. unfold n in *. lia.
  - now rewrite getitem_outside.
Qed.

End RetrieverExtras.

(** ** Retriever, positions: the statements at concrete inputs *)

Section RetrieverExtrasExamples.
Import App Retrieval.
#[local] Existing Instance Demo.tables.

Lemma retrieve_position_bounds_witness :
  result (get_knowledge_response (str "Where are you?")
            {| index := Some {| search := fun _ _ => Ok ([ [Number (1 # 10)] ], [ [(-1)%Z] ]) |};
               data := Some Demo.store;
               embedder := Some Demo.embedder;
               gemini_model := None |})
  = Ok (PyStr Demo.CAMPUS_ANSWER).
Proof.
  match goal with
  | |- result (get_knowledge_response ?q ?r) = _ =>
      destruct (retrieve_position_bounds q r (1 # 10) (-1)%Z Demo.answers)
        as (_ & H & _)
  end.
  - vm_compute. reflexivity.
  - eexists Demo.embedder, _. repeat eexists; vm_compute; reflexivity.
  - reflexivity.
  - vm_compute. reflexivity.
  - destruct H as (a & Ha & ->); [cbn; lia|].
    vm_compute in Ha. now injection Ha as <-.
Defined.

End RetrieverExtrasExamples.

(** ** Resource loading and the chat turn *)

Section ShellProperties.
Import App Retrieval Shell Turns.
Context {U : Unicode}.

(** [X4] After loading, the index and the answer store are present
    together or absent together, and they are present exactly when
    both files could be read. *)
Theorem load_resources_pairs_index_and_store (env : Environment) :
  (index (load_resources env) = None <-> data (load_resources env) = None)
  /\ (data (load_resources env) <> None
      <-> exists ix d, read_index env = Ok ix /\ pickle_load env = Ok d).
Proof.
  unfold load_resources. cbn [index data].
  destruct (read_index env) as [ix|ex], (pickle_load env) as [d|ex'];
    cbn; (split; [split; congruence|]); split;
    try (intros H; now destruct H);
    try (intros (? & ? & ? & ?); discriminate); eauto.
Qed.

(** [X5] When the knowledge base cannot be loaded (either file), every
    query, a greeting included, gets no-match, and no outside call is
    made for it. *)
Theorem no_knowledge_base_no_match (env : Environment) (query : pystr) :
  (exists ex, read_index env = Raise ex) \/ (exists ex, pickle_load env = Raise ex) ->
  get_knowledge_response query (load_resources env) = (Ok PyNone, []).
Proof.
  intros H. apply get_knowledge_response_no_store.
  unfold load_resources. cbn [data].
  destruct H as [[ex ->]|[ex ->]]; [reflexivity|].
  now destruct (read_index env).
Qed.

(** The fallback always answers, with at most 300 characters. *)
Lemma gemini_response_returns (query : pystr) (model : option GenerativeModel) :
  exists r l, gemini_response query model = (Ok r, l) /\ length r <= 300.
Proof.
  destruct model as [m|].
  - destruct (generate_content m (prompt_of query) generation_config)
      as [response|ex] eqn:Hg;
      [destruct (text response) as [t|ex] eqn:Ht|].
    + rewrite (gemini_response_success _ _ _ _ Hg Ht).
      do 2 eexists. split; [reflexivity|].
      unfold slice_to. rewrite length_firstn. lia.
    + rewrite (gemini_response_error query m) by (right; eauto).
      do 2 eexists. split; [reflexivity|]. vm_compute. lia.
    + rewrite (gemini_response_error query m) by (left; eauto).
      do 2 eexists. split; [reflexivity|]. vm_compute. lia.
  - do 2 eexists. split; [reflexivity|]. vm_compute. lia.
Qed.

(** A text has at most half as many words as characters, rounded up. *)
Lemma split_half (s : pystr) :
  2 * length (split s) <= length s + (if head_nonspace s then 1 else 0).
Proof.
  induction s as [|c r IH]; [simpl; lia|].
  cbn [split head_nonspace length].
  destruct (isspace c); cbn [negb].
  - destruct (head_nonspace r); lia.
  - destruct (head_nonspace r).
    + destruct (split r) as [|w ws]; cbn [length] in *; lia.
    + cbn [length]. lia.
Qed.

Lemma main_no_input (env : Environment) (state : option SessionState) :
  main env None state = (Ok tt, initialize state, [])
  /\ main env (Some []) state = (Ok tt, initialize state, []).
Proof. split; reflexivity. Qed.

(** The three ways a turn can go, by the reply of the knowledge
    base. *)
Lemma answer_cases (input : pystr) (resources : Resources) (s : SessionState) :
  exists v l1,
    get_knowledge_response input resources = (Ok v, l1)
    /\ match v with
       | PyStr (c :: t) =>
           answer input resources s
           = (Ok tt,
              append_message
                {| messages := messages s;
                   token_count := token_count s + Z.of_nat (length (split (c :: t))) |}
                assistant v,
              l1)
       | PyNone | PyStr [] | PyInt 0 =>
           exists r l2,
             gemini_response input (gemini_model resources) = (Ok r, l2)
             /\ length r <= 300
             /\ answer input resources s
                = (Ok tt,
                   append_message
                     {| messages := messages s;
                        token_count := token_count s + Z.of_nat (length (split r)) |}
                     assistant (PyStr r),
                   l1 ++ l2)
       | _ => answer input resources s = (Raise AttributeError, s, l1)
       end.
Proof.
  destruct (get_knowledge_response_returns input resources) as (v & l1 & Hk).
  exists v, l1. split; [exact Hk|].
  unfold answer. rewrite Hk.
  destruct (gemini_response_returns input (gemini_model resources))
    as (r & l2 & Hgm & Hlen).
  destruct v as [|[|c t]| |[|p|p]]; cbn [truthy Z.eqb negb].
  all: try (exists r, l2; split; [exact Hgm|]; split; [exact Hlen|];
            rewrite Hgm; reflexivity).
  all: cbn [count_words]; now rewrite ?app_nil_r.
Qed.

Lemma main_input (env : Environment) (c : char) (t : pystr)
    (state : option SessionState) :
  main env (Some (c :: t)) state
  = answer (c :: t) (load_resources env)
      (append_message (initialize state) user (PyStr (c :: t))).
Proof. reflexivity. Qed.

(** The two ways a run with a non-empty input can end. *)
Lemma run_cases (env : Environment) (c : char) (t : pystr)
    (state : option SessionState) :
  let input : pystr := c :: t in
  let old := initialize state in
  let run := main env (Some input) state in
  let asked := {| msg_role := user; content := PyStr input |} in
  (outcome run = Ok tt
   /\ exists r,
        messages (session run)
        = messages old ++ [asked; {| msg_role := assistant; content := PyStr r |}]
        /\ token_count (session run)
           = (token_count old + Z.of_nat (length (split r)))%Z)
  \/ (outcome run = Raise AttributeError
      /\ messages (session run) = messages old ++ [asked]
      /\ token_count (session run) = token_count old).
Proof.
  intros input old run asked.
  unfold run, input. rewrite main_input.
  destruct (answer_cases (c :: t) (load_resources env)
              (append_message old user (PyStr (c :: t)))) as (v & l1 & _ & Hv).
  fold old.
  destruct v as [|[|c' t']| |[|p|p]];
    try (destruct Hv as (r & l2 & _ & _ & ->); left; split; [reflexivity|];
         exists r; cbn; split; [now rewrite <- app_assoc|reflexivity]);
    try (rewrite Hv; right; repeat split; reflexivity).
  rewrite Hv. left. split; [reflexivity|].
  exists (c' :: t'). cbn. split; [now rewrite <- app_assoc|reflexivity].
Qed.

(** [X6] A run of [main] with a non-empty input ends in one of two
    ways.  Either it succeeds: the transcript is the old one followed
    by the user message and one assistant message, a string, and the
    counter has grown by the number of whitespace-separated words of
    that reply.  Or it raises [AttributeError]: then the user message
    has been appended, no assistant message has, and the counter is
    unchanged.  Without input nothing changes and no call is made. *)
Theorem turn_outcomes (env : Environment) (c : char) (t : pystr)
    (state : option SessionState) :
  let input : pystr := c :: t in
  let old := initialize state in
  let run := main env (Some input) state in
  let asked := {| msg_role := user; content := PyStr input |} in
  ((outcome run = Ok tt
    /\ exists r,
         messages (session run)
         = messages old ++ [asked; {| msg_role := assistant; content := PyStr r |}]
         /\ token_count (session run)
            = (token_count old + Z.of_nat (length (split r)))%Z)
   \/ (outcome run = Raise AttributeError
       /\ messages (session run) = messages old ++ [asked]
       /\ token_count (session run) = token_count old))
  /\ main env None state = (Ok tt, old, [])
  /\ main env (Some []) state = (Ok tt, old, []).
Proof.
  intros input old run asked.
  split; [apply run_cases|apply main_no_input].
Qed.

(** A reply of the knowledge base is [None] or a string as soon as all
    stored answers are strings. *)
Lemma reply_is_string (query : pystr) (resources : Resources) (v : pyval) :
  answers_are_strings resources ->
  result (get_knowledge_response query resources) = Ok v ->
  v = PyNone \/ is_str v = true.
Proof.
  intros Hstr Hv.
  destruct (get_knowledge_response_cases query resources)
    as (r & l & Hr & _ & Hp).
  rewrite Hr in Hv. injection Hv as <-.
  destruct Hp as [->|[->|(answers & Hans & Hin)]]; auto.
  right. specialize (Hstr _ Hans). rewrite List.Forall_forall in Hstr. auto.
Qed.

(** [X7] When every stored answer is a string, a run of [main] never
    raises, whatever the input, the index, the embedder and the hosted
    model do. *)
Theorem turn_never_raises_on_string_answers (env : Environment)
    (user_input : option pystr) (state : option SessionState) :
  answers_are_strings (load_resources env) ->
  outcome (main env user_input state) = Ok tt.
Proof.
  intros Hstr. destruct user_input as [[|c t]|]; try reflexivity.
  rewrite main_input.
  destruct (answer_cases (c :: t) (load_resources env)
              (append_message (initialize state) user (PyStr (c :: t))))
    as (v & l1 & Hk & Hv).
  destruct (reply_is_string (c :: t) (load_resources env) v Hstr) as [->| Hs];
    [now rewrite Hk| |].
  - destruct Hv as (r & l2 & _ & _ & ->). reflexivity.
  - destruct v as [|[|c' t']| |z]; try discriminate.
    + destruct Hv as (r & l2 & _ & _ & ->). reflexivity.
    + now rewrite Hv.
Qed.

End ShellProperties.

(** ** Resource loading: the statements at concrete inputs *)

Section ShellPropertiesExamples.
Import App Retrieval Shell Turns.
#[local] Existing Instance Demo.tables.

Lemma no_knowledge_base_no_match_witness :
  get_knowledge_response (str "hello")
    (load_resources {| read_index := Ok (Demo.index_at (1 # 10));
                       pickle_load := Raise ExternalError;
                       load_embedder := Ok Demo.embedder;
                       secret_api_key := Raise KeyError;
                       configure_model := fun _ => Raise ExternalError |})
  = (Ok PyNone, []).
Proof.
  apply no_knowledge_base_no_match. right. eexists. reflexivity.
Defined.

End ShellPropertiesExamples.

Section TurnProperties.
Import App Retrieval Shell Turns.
Context {U : Unicode}.

(** [X8] When the search returns a near neighbour whose stored answer
    is not a string but is true as a condition (the value a missing
    answer cell of the table leaves behind), the run raises
    [AttributeError]: the user message stays in the transcript without
    a reply, and the hosted model has not been called. *)
Theorem turn_raises_on_non_string_answer (env : Environment) (c : char) (t : pystr)
    (state : option SessionState) (dist : Q) (pos : Z)
    (answers : list pyval) (v : pyval) :
  let input : pystr := c :: t in
  let resources := load_resources env in
  contains (str "greeting") (normalize_str input) = false ->
  search_returns resources (normalize_str input) dist pos ->
  (dist < threshold)%Q ->
  data_getitem (data resources) "answers" = Ok answers ->
  getitem answers pos = Ok v ->
  truthy v = true -> is_str v = false ->
  main env (Some input) state
  = (Raise AttributeError,
     append_message (initialize state) user (PyStr input),
     calls (get_knowledge_response input resources)).
Proof.
  intros input resources Hg Hs Hlt Hans Hv Ht Hstr.
  pose proof (get_knowledge_response_near _ _ _ _ _ Hg Hs Hlt Hans) as Hk.
  rewrite Hv in Hk.
  unfold input. rewrite main_input. fold input resources.
  destruct (answer_cases input resources
              (append_message (initialize state) user (PyStr input)))
    as (v' & l1 & Hk' & Hcase).
  rewrite Hk' in Hk |- *. cbn in Hk. injection Hk as ->.
  destruct v as [|s| |[|p|p]]; try discriminate; cbn [calls snd]; exact Hcase.
Qed.

(** [X9] The hosted model is consulted exactly when the reply of the
    knowledge base is false as a condition (no-match, or a stored
    answer that is the empty string): the outside calls of a run are
    those of the retrieval, followed by those of the fallback in that
    case only. *)
Theorem fallback_only_without_match (env : Environment) (c : char) (t : pystr)
    (state : option SessionState) :
  let input : pystr := c :: t in
  let resources := load_resources env in
  exists v,
    result (get_knowledge_response input resources) = Ok v
    /\ made_calls (main env (Some input) state)
       = calls (get_knowledge_response input resources)
         ++ (if truthy v then []
             else calls (gemini_response input (gemini_model resources))).
Proof.
  intros input resources. unfold input. rewrite main_input. fold input resources.
  destruct (answer_cases input resources
              (append_message (initialize state) user (PyStr input)))
    as (v & l1 & Hk & Hcase).
  exists v. rewrite Hk. split; [reflexivity|]. cbn [calls snd].
  destruct v as [|[|c' t']| |[|p|p]]; cbn [truthy Z.eqb negb];
    try (destruct Hcase as (r & l2 & -> & _ & ->); reflexivity);
    rewrite Hcase; cbn; now rewrite app_nil_r.
Qed.

(** [X10] The usage counter never decreases, and a turn answered by
    the fallback adds at most 150 to it (a reply of at most 300
    characters has at most 150 words). *)
Theorem turn_counter_bounds (env : Environment) (user_input : option pystr)
    (state : option SessionState) :
  let old := token_count (initialize state) in
  let new := token_count (session (main env user_input state)) in
  (old <= new)%Z
  /\ (forall c t v,
        user_input = Some (c :: t) ->
        result (get_knowledge_response (c :: t) (load_resources env)) = Ok v ->
        truthy v = false ->
        (new <= old + 150)%Z).
Proof.
  intros old new. unfold old, new.
  destruct user_input as [[|c t]|]; try (split; [cbn; lia|intros; discriminate]).
  rewrite main_input.
  destruct (answer_cases (c :: t) (load_resources env)
              (append_message (initialize state) user (PyStr (c :: t))))
    as (v & l1 & Hk & Hcase).
  assert (Hfb : forall r l2,
             length r <= 300 ->
             (token_count (initialize state)
              <= token_count
                   (session
                      (Ok tt,
                       append_message
                         {| messages := messages (append_message (initialize state)
                                                    user (PyStr (c :: t)));
                            token_count :=
                              token_count (append_message (initialize state)
                                             user (PyStr (c :: t)))
                              + Z.of_nat (length (split r)) |}
                         assistant (PyStr r),
                       l1 ++ l2))
              <= token_count (initialize state) + 150)%Z).
  { intros r l2 Hlen. cbn. pose proof (split_half r).
    destruct (head_nonspace r); lia. }
  split.
  - destruct v as [|[|c' t']| |[|p|p]];
      try (destruct Hcase as (r & l2 & _ & Hlen & ->); apply (Hfb r l2 Hlen));
      rewrite Hcase; cbn; lia.
  - intros c0 t0 v0 [= <- <-] Hv0 Hf. rewrite Hk in Hv0. cbn in Hv0.
    injection Hv0 as <-.
    destruct v as [|[|c' t']| |[|p|p]]; try discriminate;
      destruct Hcase as (r & l2 & _ & Hlen & ->); apply (Hfb r l2 Hlen).
Qed.

Lemma alternates_turn (expect : role) (ms : list message) (q a : pyval) :
  alternates expect ms = true ->
  alternates expect
    (ms ++ [ {| msg_role := user; content := q |};
             {| msg_role := assistant; content := a |} ]) = true.
Proof.
  revert expect. induction ms as [|m ms IH]; intros expect H.
  - destruct expect; [reflexivity|discriminate].
  - cbn [app alternates] in *.
    destruct expect, (msg_role m); try discriminate; now apply IH.
Qed.

(** [X11] A transcript in which assistant and user alternate, from the
    assistant's welcome to an assistant reply, keeps that shape over
    every run that succeeds; the transcript of a first run has it. *)
Theorem transcript_alternates (env : Environment) (user_input : option pystr)
    (state : option SessionState) :
  alternates assistant (messages (initialize None)) = true
  /\ (alternates assistant (messages (initialize state)) = true ->
      outcome (main env user_input state) = Ok tt ->
      alternates assistant (messages (session (main env user_input state))) = true).
Proof.
  split; [reflexivity|]. intros Halt Hok.
  destruct user_input as [[|c t]|]; try exact Halt.
  pose proof (run_cases env c t state) as Hc. cbv zeta in Hc.
  destruct Hc as [(_ & r & Hm & _)|(Hr & _)].
  - rewrite Hm. now apply alternates_turn.
  - rewrite Hr in Hok. discriminate.
Qed.

End TurnProperties.

(** ** The chat turn: the statements at concrete inputs *)

Section TurnPropertiesExamples.
Import App Retrieval Shell Turns.
#[local] Existing Instance Demo.tables.

Lemma turn_never_raises_on_string_answers_witness :
  outcome (main (DemoShell.environment Demo.store 0) (Some (str "How do I apply?")) None)
  = Ok tt.
Proof.
  apply turn_never_raises_on_string_answers.
  intros answers H. vm_compute in H. injection H as <-.
  repeat constructor.
Defined.

Lemma turn_raises_on_non_string_answer_witness :
  outcome (main (DemoShell.environment DemoShell.store_with_gap 1)
             (Some (str "How do I apply?")) None)
  = Raise AttributeError.
Proof.
  pose proof (turn_raises_on_non_string_answer
                (DemoShell.environment DemoShell.store_with_gap 1)
                72%N (str "ow do I apply?") None (1 # 10) 1%Z
                [PyStr Demo.ADMISSION_ANSWER; PyNaN; PyStr []] PyNaN) as H.
  cbv zeta in H.
  transitivity
    (outcome (Raise AttributeError,
              append_message (initialize None) user (PyStr (str "How do I apply?")),
              calls (get_knowledge_response (str "How do I apply?")
                       (load_resources
                          (DemoShell.environment DemoShell.store_with_gap 1)))));
    [|reflexivity].
  apply (f_equal outcome). apply H; try reflexivity.
  eexists Demo.embedder, _. repeat eexists; vm_compute; reflexivity.
Defined.

Lemma turn_counter_bounds_witness :
  (token_count (session (main DemoShell.environment_without_store
                           (Some (str "What is the weather?"))
                           (Some {| messages := []; token_count := 7 |}))) <= 157)%Z.
Proof.
  destruct (turn_counter_bounds DemoShell.environment_without_store
              (Some (str "What is the weather?"))
              (Some {| messages := []; token_count := 7 |})) as [_ H].
  eapply (H _ _ PyNone); [reflexivity|vm_compute; reflexivity|reflexivity].
Defined.

Lemma transcript_alternates_witness :
  alternates assistant
    (messages (session (main (DemoShell.environment Demo.store 0)
                          (Some (str "How do I apply?")) None))) = true.
Proof.
  destruct (transcript_alternates (DemoShell.environment Demo.store 0)
              (Some (str "How do I apply?")) None) as [H0 H].
  apply H; [exact H0|vm_compute; reflexivity].
Defined.

End TurnPropertiesExamples.

(** ** Text normaliser: further properties *)

Section NormalizerProperties.
Import Words Turns.
Context {U : Unicode} {L : Words.LowerLaws}.

Lemma word_runs_nil (s : pystr) :
  word_runs s = [] <-> Forall (fun c => is_word c = false) s.
Proof.
  induction s as [|c r Hc IH|w r Hw Hr IH] using runs_ind.
  - split; [constructor|reflexivity].
  - rewrite word_runs_nonword by exact Hc. rewrite IH. split.
    + now constructor.
    + intros H. now inversion H.
  - rewrite word_runs_run by assumption. split; [discriminate|].
    intros H. apply Forall_app in H as [H _].
    destruct w as [|c w]; [discriminate|].
    simpl in Hw. apply andb_true_iff in Hw as [Hc _].
    inversion H; subst. congruence.
Qed.

Lemma join_nil (ws : list pystr) :
  Forall (fun w => is_run w = true) ws -> join ws = [] -> ws = [].
Proof.
  intros H Hj. destruct ws as [|w ws]; [reflexivity|].
  inversion H; subst.
  destruct (join_run_cons w ws) as (c & t & Hc & _); [assumption|]. congruence.
Qed.

Lemma build_words_settled (s : pystr) :
  Forall settled (List.map build_fold (word_runs (remove_punct (lower s)))).
Proof. apply settled_map; [apply settled_build_fold|apply settled_words]. Qed.

(** [X14] The build-side result is in canonical form, on every
    string: it is the words of the lower-cased text with the
    punctuation deleted (its maximal runs of word characters), each
    passed through the synonym table, joined by single blanks; every
    such word is a non-empty run of word characters, none of which
    [str.lower] would change.  ([str.lower] is used through the
    properties listed in [LowerLaws].) *)
Theorem build_normalize_canonical (s : pystr) :
  BuildVector.normalize_str s
  = join (List.map build_fold (word_runs (remove_punct (lower s))))
  /\ Forall settled (List.map build_fold (word_runs (remove_punct (lower s)))).
Proof.
  split; [apply build_normalize_words|apply build_words_settled].
Qed.

Lemma existsb_is_word_false (s : pystr) :
  existsb is_word s = false <-> Forall (fun c => is_word c = false) s.
Proof.
  induction s as [|c s IH]; simpl.
  - split; [constructor|reflexivity].
  - rewrite orb_false_iff, IH. split.
    + intros [Hc Hs]. now constructor.
    + intros H. now inversion H.
Qed.

Lemma remove_punct_no_word (s : pystr) :
  Forall (fun c => is_word c = false) (remove_punct s)
  <-> Forall (fun c => is_word c = false) s.
Proof.
  rewrite !List.Forall_forall. split; intros H c Hc.
  - destruct (is_word c) eqn:E; [|reflexivity].
    rewrite <- E. apply H. apply filter_In. split; [exact Hc|].
    now rewrite E.
  - apply filter_In in Hc as [Hc _]. now apply H.
Qed.

(** [X15] The build-side result is the empty string exactly when the
    text has no word character (no letter, digit or underscore), on
    every string.  ([str.lower] is used through the properties listed
    in [LowerLaws].) *)
Theorem build_normalize_empty_iff (s : pystr) :
  BuildVector.normalize_str s = [] <-> Forall (fun c => is_word c = false) s.
Proof.
  rewrite build_normalize_words.
  assert (Hruns : Forall (fun w => is_run w = true)
                    (List.map build_fold (word_runs (remove_punct (lower s))))).
  { eapply List.Forall_impl; [|apply build_words_settled]. now intros w [Hw _]. }
  assert (Hw : word_runs (remove_punct (lower s)) = []
               <-> Forall (fun c => is_word c = false) s).
  { rewrite word_runs_nil, remove_punct_no_word.
    rewrite <- !existsb_is_word_false. now rewrite lower_keeps_words. }
  rewrite <- Hw. split.
  - intros Hj. apply join_nil in Hj; [|exact Hruns].
    now apply map_eq_nil in Hj.
  - now intros ->.
Qed.

(** [X17] On the build side, for a text of code points below 256:
    a character that is neither a word character nor whitespace can be
    removed from the input without changing the result (so the halves
    of a hyphenated word are joined).  Beyond 256 this fails, where
    lower-casing a capital sigma depends on the character that
    follows. *)
Theorem build_normalize_ignores_punctuation (s1 s2 : pystr) (p : char) :
  latin1 (s1 ++ p :: s2) ->
  is_word p = false -> isspace p = false ->
  BuildVector.normalize_str (s1 ++ p :: s2) = BuildVector.normalize_str (s1 ++ s2).
Proof.
  intros Hl Hw Hs.
  assert (Hl' : latin1 (s1 ++ s2)).
  { unfold latin1 in *. apply Forall_app in Hl as [H1 H2].
    apply Forall_app. split; [exact H1|now inversion H2]. }
  assert (Heq : remove_punct (lower (s1 ++ p :: s2))
                = remove_punct (lower (s1 ++ s2))).
  { rewrite !lower_latin1 by assumption.
    unfold remove_punct. rewrite !List.map_app, !List.filter_app.
    cbn [List.map List.filter].
    now rewrite (lower_char_nonword _ Hw), Hw, Hs. }
  cbv beta zeta delta [BuildVector.normalize_str]. now rewrite Heq.
Qed.

Lemma blanks_ok_collapse (b : bool) (s : pystr) :
  blanks_ok b (collapse_from b s) = true.
Proof.
  revert b. induction s as [|c r IH]; intros b; [reflexivity|].
  cbn [collapse_from]. destruct (isspace c) eqn:Hc.
  - destruct b; [apply IH|].
    cbn [blanks_ok]. change (isspace 32%N) with true. cbn. apply IH.
  - cbn [blanks_ok]. rewrite Hc. apply IH.
Qed.

Lemma blanks_ok_weaken (s : pystr) :
  blanks_ok true s = true -> blanks_ok false s = true.
Proof.
  destruct s as [|c r]; [reflexivity|]. cbn [blanks_ok].
  destruct (isspace c); [|auto]. now rewrite andb_false_r.
Qed.

Lemma clean_collapse (b : bool) (s : pystr) :
  clean s -> clean (collapse_from b s).
Proof.
  unfold clean. intros H. revert b.
  induction H as [|c r Hc _ IH]; intros b; [constructor|].
  cbn [collapse_from]. destruct (isspace c) eqn:Hs.
  - destruct b; [apply IH|]. constructor; [right; reflexivity|apply IH].
  - constructor; [destruct Hc; [now left|congruence] |apply IH].
Qed.

(** [X18] The serve-side result contains, on every string, word
    characters and blanks only: no punctuation, no tab or newline, and
    never two blanks in a row. *)
Theorem serve_normalize_single_blanks (s : pystr) :
  clean (App.normalize_str s) /\ blanks_ok false (App.normalize_str s) = true.
Proof.
  cbv beta zeta delta [App.normalize_str]. split.
  - apply clean_collapse.
    do 4 (apply clean_re_sub_words; [reflexivity|]). apply clean_remove_punct.
  - apply blanks_ok_collapse.
Qed.

Lemma join_In (g : pystr) (ws : list pystr) :
  In g ws -> exists a b, join ws = a ++ g ++ b.
Proof.
  induction ws as [|w ws IH]; [intros []|].
  rewrite join_cons. intros [->|H].
  - exists [], (match ws with [] => [] | _ => 32%N :: join ws end). reflexivity.
  - destruct (IH H) as (a & b & Hj). destruct ws as [|w' ws]; [destruct H|].
    exists (w ++ 32%N :: a), b. rewrite Hj. now rewrite <- app_assoc.
Qed.

Lemma serve_fold_greeting (w : pystr) :
  In w App.greeting_alts -> serve_fold w = str "greeting".
Proof.
  intros H. cbn in H.
  repeat (destruct H as [<-|H]; [vm_compute; reflexivity|]). destruct H.
Qed.

Lemma greeting_word_contains (s : pystr) :
  has_greeting_word s ->
  contains (str "greeting") (App.normalize_str s) = true.
Proof.
  intros (w & Hw & Hg).
  destruct (rstrip_split (App.normalize_str s)) as (post & Hs & _).
  destruct (lstrip_split (rstrip (App.normalize_str s))) as (pre & Hr & _).
  fold (strip (App.normalize_str s)) in Hr. rewrite Hr in Hs. clear Hr.
  rewrite serve_normalize_words in Hs.
  destruct (join_In (str "greeting")
              (List.map serve_fold (word_runs (remove_punct (lower s)))))
    as (a & b & Hj).
  { rewrite <- (serve_fold_greeting w Hg). now apply in_map. }
  rewrite Hs, Hj.
  replace ((pre ++ a ++ str "greeting" ++ b) ++ post)
    with ((pre ++ a) ++ str "greeting" ++ (b ++ post))
    by (now rewrite <- !app_assoc).
  apply contains_infix.
Qed.

(** [X16] Every query that has hi, hello, hey, hlw, hii, greeting or
    greetings among its words (the maximal runs of word characters of
    its lower-cased form with the punctuation deleted) normalises to a
    text containing "greeting"; with the answer store loaded and
    non-empty it gets the fixed greeting reply, and no call to the
    embedder or the index is made. *)
Theorem greeting_word_gets_greeting (query : pystr) (resources : App.Resources) :
  has_greeting_word query ->
  contains (str "greeting") (App.normalize_str query) = true
  /\ (App.falsy_data (App.data resources) = false ->
      App.get_knowledge_response query resources
      = (Ok (PyStr App.GREETING_REPLY), [])).
Proof.
  intros H. pose proof (greeting_word_contains query H) as Hc.
  split; [exact Hc|]. intros Hd.
  now apply get_knowledge_response_greeting.
Qed.

End NormalizerProperties.

(** ** Text normaliser, further properties: the statements at concrete inputs *)

Section NormalizerPropertiesExamples.
Import Words Turns.
#[local] Existing Instance Demo.tables.
#[local] Existing Instance demo_tables_laws.

Lemma build_normalize_idempotent_witness :
  BuildVector.normalize_str (BuildVector.normalize_str (str " Jobs & E-mail? "))
  = BuildVector.normalize_str (str " Jobs & E-mail? ").
Proof. apply build_normalize_idempotent. Defined.

Lemma serve_normalize_idempotent_up_to_strip_witness :
  strip (App.normalize_str (App.normalize_str (str "hello !")))
  = strip (App.normalize_str (str "hello !")).
Proof. apply serve_normalize_idempotent_up_to_strip. Defined.

Lemma build_normalize_canonical_witness :
  BuildVector.normalize_str (str " E-mail,  or PHONE?")
  = join [str "contact"; str "or"; str "contact"].
Proof.
  destruct (build_normalize_canonical (str " E-mail,  or PHONE?")) as [-> _].
  vm_compute. reflexivity.
Defined.

Lemma build_normalize_empty_iff_witness :
  BuildVector.normalize_str (str " ?! ... ") = [].
Proof.
  apply build_normalize_empty_iff.
  apply List.Forall_forall. intros c Hc. vm_compute in Hc.
  repeat (destruct Hc as [<-|Hc]; [reflexivity|]). destruct Hc.
Defined.

Lemma greeting_word_gets_greeting_witness :
  App.get_knowledge_response (str "HEY!! where is the hostel?") (Demo.resources (1 # 2))
  = (Ok (PyStr App.GREETING_REPLY), []).
Proof.
  apply greeting_word_gets_greeting.
  - exists (str "hey"). split; vm_compute; tauto.
  - reflexivity.
Defined.

Lemma build_normalize_ignores_punctuation_witness :
  BuildVector.normalize_str (str "e-mail") = BuildVector.normalize_str (str "email").
Proof.
  apply (build_normalize_ignores_punctuation (str "e") (str "mail") 45%N);
    try reflexivity.
  apply latin1_check. reflexivity.
Defined.

Lemma serve_normalize_single_blanks_witness :
  blanks_ok false
    (App.normalize_str (str "Fees ?" ++ [9%N] ++ str " and   hostel!")) = true.
Proof. apply serve_normalize_single_blanks. Defined.

End NormalizerPropertiesExamples.

(** ** Builder and responder: further properties *)

Section BuilderProperties.
Import BuildVector Building Retrieval.
Context {U : Unicode}.

(** What a finished build hands over. *)
Lemma main_result (df : DataFrame) (model : SentenceTransformer)
    (index : IndexFlatL2) (store : gmap string (list pyval)) :
  result (main df model) = Ok (index, store) ->
  xb index <> []
  /\ encode model (normalized_column df) = Ok (xb index)
  /\ store = <["questions" := List.map (fun r => fillna (question r)) df]>
             (<["answers" := List.map answer df]>
             (<["departments" := List.map department df]>
             (<["keywords" := List.map keywords df]> ∅))).
Proof.
  rewrite main_unfold. unfold outside, lift, bind, ret, result.
  destruct (encode model (normalized_column df)) as [emb|] eqn:He;
    [|discriminate].
  destruct emb as [|v emb]; [discriminate|]. cbn [shape1].
  unfold add. cbn [d xb new_IndexFlatL2 app].
  destruct (forallb (fun v0 => Nat.eqb (length v0) (length v)) (v :: emb));
    [|discriminate].
  cbn. intros [= <- <-]. cbn. repeat split. discriminate.
Qed.


(** [X20] Index positions and answers stay aligned from build to
    retrieval: with the dictionary of a finished build as answer
    store, a search that returns row number [i] at a distance below
    the threshold makes the reply the answer of row [i] of the
    table. *)
Theorem built_position_gives_row_answer
    (df : DataFrame) (model : SentenceTransformer)
    (index : IndexFlatL2) (store : gmap string (list pyval))
    (resources : App.Resources) (query : pystr) (dist : Q) (i : nat) (r : row) :
  result (main df model) = Ok (index, store) ->
  App.data resources = Some store ->
  nth_error df i = Some r ->
  contains (str "greeting") (App.normalize_str query) = false ->
  search_returns resources (App.normalize_str query) dist (Z.of_nat i) ->
  (dist < App.threshold)%Q ->
  result (App.get_knowledge_response query resources) = Ok (answer r).
Proof.
  intros Hres Hdata Hrow Hg Hs Hlt.
  destruct (main_result _ _ _ _ Hres) as (_ & _ & Hstore).
  assert (Hans : App.data_getitem (App.data resources) "answers"
                 = Ok (List.map answer df)).
  { unfold App.data_getitem. rewrite Hdata, Hstore. reflexivity. }
  rewrite (get_knowledge_response_near _ _ _ _ _ Hg Hs Hlt Hans).
  assert (Hi : i < length df) by (apply nth_error_Some; congruence).
  rewrite getitem_front by (rewrite length_map; lia).
  now rewrite Nat2Z.id, nth_error_map, Hrow.
Qed.

(** [X21] When the embedding model returns an array without rows, as
    for a table without rows, the build stops with [IndexError] at
    [embeddings.shape[1]]: no index is created and nothing is handed
    over. *)
Theorem build_without_rows_raises (df : DataFrame) (model : SentenceTransformer) :
  encode model (normalized_column df) = Ok [] ->
  main df model = (Raise IndexError, [CallEncode (normalized_column df)]).
Proof.
  intros H. rewrite main_unfold. unfold outside, lift, bind, ret.
  now rewrite H.
Qed.

End BuilderProperties.

(** ** Builder, further properties: the statements at concrete inputs *)

Section BuilderPropertiesExamples.
Import BuildVector Building Retrieval.
#[local] Existing Instance Demo.tables.


Lemma built_position_gives_row_answer_witness :
  exists index store,
    result (main Demo.table Demo.embedder) = Ok (index, store)
    /\ result (App.get_knowledge_response (str "What about admission?")
                 {| App.index := Some (Demo.index_at (1 # 5));
                    App.data := Some store;
                    App.embedder := Some Demo.embedder;
                    App.gemini_model := None |})
       = Ok (PyStr Demo.ADMISSION_ANSWER).
Proof.
  destruct (main Demo.table Demo.embedder) as [[[index store]|ex] l] eqn:E;
    [|vm_compute in E; discriminate].
  exists index, store. split; [reflexivity|].
  apply (built_position_gives_row_answer Demo.table Demo.embedder index store
           _ _ (1 # 5) 0 DemoShell.admission_row).
  - now rewrite E.
  - reflexivity.
  - reflexivity.
  - vm_compute. reflexivity.
  - eexists Demo.embedder, _. repeat eexists; vm_compute; reflexivity.
  - reflexivity.
Defined.

Lemma build_without_rows_raises_witness :
  main [] Demo.embedder = (Raise IndexError, [CallEncode []]).
Proof. apply (build_without_rows_raises [] Demo.embedder). reflexivity. Defined.

End BuilderPropertiesExamples.

Section ResponderProperties.
Import App Retrieval Words.

Lemma head_is_space_lstrip (s : pystr) : head_is_space (lstrip s) = false.
Proof.
  induction s as [|c s IH]; [reflexivity|]. simpl.
  destruct (isspace c) eqn:E; [exact IH|]. simpl. exact E.
Qed.

Lemma strip_spaces (s : pystr) :
  Forall (fun c => isspace c = true) s -> strip s = [].
Proof.
  intros H. unfold strip.
  assert (Hr : rstrip s = []).
  { induction H as [|c s Hc _ IH]; [reflexivity|].
    rewrite rstrip_space by exact Hc. now rewrite IH. }
  now rewrite Hr.
Qed.

(** [X22] The text the hosted model returns is stripped before it is
    cut: the reply never begins with whitespace, a text of at most 300
    characters after stripping is returned whole, and a text of
    whitespace only gives the empty reply (not the contact message). *)
Theorem respond_strips_model_text (query : pystr) (m : GenerativeModel)
    (response : GenerateContentResponse) (t : pystr) :
  generate_content m (prompt_of query) generation_config = Ok response ->
  text response = Ok t ->
  exists r,
    result (gemini_response query (Some m)) = Ok r
    /\ head_is_space r = false
    /\ (length (strip t) <= 300 -> r = strip t)
    /\ (Forall (fun c => isspace c = true) t -> r = []).
Proof.
  intros Hg Ht. rewrite (gemini_response_success _ _ _ _ Hg Ht).
  eexists. split; [reflexivity|]. unfold slice_to. repeat split.
  - pose proof (head_is_space_lstrip (rstrip t)) as H. fold (strip t) in H.
    destruct (strip t); [reflexivity|exact H].
  - intros H. now apply firstn_all2.
  - intros H. now rewrite strip_spaces.
Qed.

Lemma respond_strips_model_text_witness :
  result (gemini_response (str "Library hours?") (Some DemoShell.helpful_model))
  = Ok (str "Please see the website.").
Proof.
  destruct (respond_strips_model_text (str "Library hours?") DemoShell.helpful_model
              {| text := Ok (str " Please see the website. ") |}
              (str " Please see the website. "))
    as (r & -> & _ & H & _); try reflexivity.
  rewrite H; [reflexivity|vm_compute; lia].
Defined.

(** [X23] With a model handle, the hosted model is called exactly once
    whatever it does, with output limited to 150 tokens at temperature
    0.3, and the prompt carries the query as typed (not normalised)
    followed by the contact information and the website. *)
Theorem respond_calls_model_once (query : pystr) (m : GenerativeModel) :
  exists prompt,
    calls (gemini_response query (Some m))
    = [CallGenerate prompt {| max_output_tokens := 150; temperature := 3 # 10 |}]
    /\ exists before,
         prompt = before ++ query ++ str " Contact: " ++ CONTACT_INFO
                  ++ str " | Website: " ++ WEBSITE.
Proof.
  exists (prompt_of query). split.
  - destruct (generate_content m (prompt_of query) generation_config)
      as [response|ex] eqn:Hg;
      [destruct (text response) as [t|ex] eqn:Ht|].
    + now rewrite (gemini_response_success _ _ _ _ Hg Ht).
    + now rewrite (gemini_response_error query m) by (right; eauto).
    + now rewrite (gemini_response_error query m) by (left; eauto).
  - exists (str "Answer briefly as " ++ COLLEGE_NAME ++ str " assistant: ").
    unfold prompt_of. now rewrite <- !app_assoc.
Qed.

End ResponderProperties.
